(** * OTX ETL connector: extract, transform, load

    A shallow embedding of [etl_connector.py] (class [OTXETLConnector])
    and the properties of its three phases and of the orchestrator.

    Python values are embedded as a dynamically typed value type; the
    methods run in a state-and-exception monad over a world that holds
    the scripted replies of the remote API, the clock, the document
    store and the trace of effects performed so far. *)

From Stdlib Require Import List String Ascii ZArith Bool Lia Floats.
Import ListNotations.
Local Open Scope string_scope.
Local Open Scope list_scope.
Local Open Scope Z_scope.

Set Warnings "-register-all".

(** ** Python values *)

(** What [response.json()] can produce (None, bool, int, float, str,
    list, dict with string keys), plus the timezone-aware [datetime] that
    [transform_data] stamps on each record.  A dict is an association list
    in insertion order; lookup takes the first binding of a key. *)
Inductive pyval : Type :=
| VNone
| VBool (b : bool)
| VInt (n : Z)
| VFloat (f : float)
| VStr (s : string)
| VList (l : list pyval)
| VDict (d : list (string * pyval))
| VDatetime (t : Z).

(** Exception classes that occur in the connector. *)
Inductive exn : Type :=
| RequestException      (* requests.exceptions.RequestException: transport *)
| HTTPError             (* raised by raise_for_status *)
| JSONDecodeError       (* raised by response.json() on invalid JSON *)
| ValueError            (* e.g. an integer literal over the digit limit *)
| RecursionError        (* e.g. a body nested too deeply for the parser *)
| AttributeError
| TypeError
| KeyError
| PyMongoError.         (* any store-level error *)

(** [isinstance(e, requests.exceptions.RequestException)]: [HTTPError] and
    the [JSONDecodeError] of requests both derive from it. *)
Definition is_RequestException (e : exn) : bool :=
  match e with
  | RequestException | HTTPError | JSONDecodeError => true
  | _ => false
  end.

(** [isinstance(e, json.JSONDecodeError)]; a plain [ValueError] is not
    one. *)
Definition is_JSONDecodeError (e : exn) : bool :=
  match e with
  | JSONDecodeError => true
  | _ => false
  end.

Inductive result (A : Type) : Type :=
| Ok (a : A)
| Raise (e : exn).
Arguments Ok {A} a.
Arguments Raise {A} e.

(** Python truthiness, as used by [not x]. *)
Definition truthy (v : pyval) : bool :=
  match v with
  | VNone => false
  | VBool b => b
  | VInt n => negb (n =? 0)
  | VFloat f => negb (PrimFloat.eqb f PrimFloat.zero)
  | VStr s => negb (String.eqb s "")
  | VList l => match l with [] => false | _ => true end
  | VDict d => match d with [] => false | _ => true end
  | VDatetime _ => true
  end.

(** [d.get(k)] on the association list. *)
Fixpoint lookup (k : string) (d : list (string * pyval)) : option pyval :=
  match d with
  | [] => None
  | (k', v) :: d' => if String.eqb k k' then Some v else lookup k d'
  end.

(** The keys of a dict, each once. *)
Definition keys (d : list (string * pyval)) : list string :=
  nodup string_dec (map fst d).

(** The characters of a string, as one-character strings. *)
Fixpoint chars (s : string) : list pyval :=
  match s with
  | EmptyString => []
  | String c s' => VStr (String c EmptyString) :: chars s'
  end.

(** [len(v)]: defined on str, list and dict, [TypeError] otherwise.  The
    length of a str is counted in the characters of the embedding. *)
Definition py_len (v : pyval) : result Z :=
  match v with
  | VStr s => Ok (Z.of_nat (String.length s))
  | VList l => Ok (Z.of_nat (List.length l))
  | VDict d => Ok (Z.of_nat (List.length (keys d)))
  | _ => Raise TypeError
  end.

(** [v.get(k, default)]: only a dict has the method. *)
Definition py_get (v : pyval) (k : string) (default : pyval) : result pyval :=
  match v with
  | VDict d => Ok (match lookup k d with Some x => x | None => default end)
  | _ => Raise AttributeError
  end.

Definition is_str (k : string) (v : pyval) : bool :=
  match v with
  | VStr s => String.eqb k s
  | _ => false
  end.

(** [k in v] for a string [k]: key of a dict, element of a list,
    substring of a str; [TypeError] on a value that is not a container. *)
Definition py_contains (k : string) (v : pyval) : result bool :=
  match v with
  | VDict d => Ok (match lookup k d with Some _ => true | None => false end)
  | VList l => Ok (existsb (is_str k) l)
  | VStr s => Ok (match String.index 0 k s with Some _ => true | None => false end)
  | _ => Raise TypeError
  end.

(** [v[k]] for a string [k]: a list or a str wants an integer index. *)
Definition py_getitem (v : pyval) (k : string) : result pyval :=
  match v with
  | VDict d => match lookup k d with Some x => Ok x | None => Raise KeyError end
  | _ => Raise TypeError
  end.

(** [for x in v]: the elements of a list, the keys of a dict, the
    characters of a str; [TypeError] on anything else. *)
Definition py_iter (v : pyval) : result (list pyval) :=
  match v with
  | VList l => Ok l
  | VDict d => Ok (map VStr (keys d))
  | VStr s => Ok (chars s)
  | _ => Raise TypeError
  end.

(** ** The world *)

(** An HTTP response as the connector sees it: the status code and what
    [response.json()] does on its body.  The call returns the parsed
    value or raises: [JSONDecodeError] when the body is not valid JSON,
    and on a well-formed body whatever the parser itself raises
    ([ValueError], [RecursionError]). *)
Record response : Type := {
  status_code : Z;
  json_body : result pyval
}.

(** What one call of [requests.get] does: raise a transport error or
    return a response. *)
Inductive http_outcome : Type :=
| Fails
| Replies (r : response).

(** Lines printed by the connector. *)
Inductive log_msg : Type :=
| ExtractingFrom (url : string)
| RateLimitReached
| Extracted (n : Z)
| ExtractionError (e : exn)
| JSONParseError (e : exn)
| NoDataToTransform
| TransformRecordError (e : exn)
| Transformed (n : Z)
| NoDataToLoad
| Loaded (n : Z)
| LoadError (e : exn)
| PipelineStart
| ExtractPhase
| ExtractionFailed
| TransformPhase
| TransformationFailed
| LoadPhase
| PipelineComplete
| Duration (seconds : Z)
| RecordsProcessed (n : Z).

Inductive method : Type :=
| ExtractData
| TransformData
| LoadData
| RunEtlPipeline.

(** Effects, in the order they happen. *)
Inductive event : Type :=
| Call (m : method)
| Print (msg : log_msg)
| HttpGet (url : string) (headers : list (string * option string))
          (params : list (string * Z))
| Sleep (seconds : Z)
| InsertMany (docs : pyval).

(** The document store is a black box with a bulk insert, which either
    raises or returns the identifiers of the inserted documents. *)
Class Collection (S : Type) : Type := {
  insert_many : pyval -> S -> result (list Z) * S
}.

(** The fields of [self] that the pipeline reads. *)
Record OTXETLConnector : Type := {
  api_key : option string;
  base_url : string
}.

Definition init (key : option string) : OTXETLConnector :=
  {| api_key := key; base_url := "https://otx.alienvault.com" |}.

Definition headers (self : OTXETLConnector) : list (string * option string) :=
  [("X-OTX-API-KEY", api_key self); ("Content-Type", Some "application/json")].

Section Connector.

Context {S : Type} {store_ops : Collection S}.

Record world : Type := {
  http : list http_outcome;   (* the replies the API will give, in order *)
  clock : Z;                  (* seconds, UTC *)
  store : S;
  trace : list event
}.

Definition M (A : Type) : Type := world -> result A * world.

Definition ret {A} (a : A) : M A := fun w => (Ok a, w).

Definition raise {A} (e : exn) : M A := fun w => (Raise e, w).

Definition bind {A B} (m : M A) (k : A -> M B) : M B :=
  fun w =>
    match m w with
    | (Ok a, w') => k a w'
    | (Raise e, w') => (Raise e, w')
    end.

(** [try: m  except <handled>: h]; the exception passes when no clause
    matches it. *)
Definition try_except {A} (m : M A) (h : exn -> option (M A)) : M A :=
  fun w =>
    match m w with
    | (Ok a, w') => (Ok a, w')
    | (Raise e, w') =>
        match h e with
        | Some k => k w'
        | None => (Raise e, w')
        end
    end.

Definition lift {A} (r : result A) : M A := fun w => (r, w).

Notation "x <- m ;; k" := (bind m (fun x => k))
  (at level 61, m at next level, right associativity).
Notation "m ;; k" := (bind m (fun _ => k))
  (at level 61, right associativity).

(** *** Primitive effects *)

Definition emit (e : event) (w : world) : world :=
  {| http := http w; clock := clock w; store := store w;
     trace := trace w ++ [e] |}.

Definition call (m : method) : M unit := fun w => (Ok tt, emit (Call m) w).

Definition print (msg : log_msg) : M unit := fun w => (Ok tt, emit (Print msg) w).

(** [datetime.now(timezone.utc)]. *)
Definition now : M Z := fun w => (Ok (clock w), w).

(** [time.sleep(seconds)]. *)
Definition sleep (seconds : Z) : M unit :=
  fun w =>
    (Ok tt, {| http := http w; clock := clock w + seconds; store := store w;
               trace := trace w ++ [Sleep seconds] |}).

(** [requests.get(url, headers=..., params=...)]: consumes the next
    scripted reply; an exhausted script is a network that no longer
    answers. *)
Definition requests_get (url : string) (hdrs : list (string * option string))
    (params : list (string * Z)) : M response :=
  fun w =>
    let w' := {| http := tl (http w); clock := clock w; store := store w;
                 trace := trace w ++ [HttpGet url hdrs params] |} in
    match http w with
    | Replies r :: _ => (Ok r, w')
    | _ => (Raise RequestException, w')
    end.

(** [response.raise_for_status()]: [HTTPError] on 4xx and 5xx. *)
Definition raise_for_status (r : response) : M unit :=
  if (400 <=? status_code r) && (status_code r <? 600)
  then raise HTTPError else ret tt.

(** [response.json()]. *)
Definition response_json (r : response) : M pyval :=
  match json_body r with
  | Ok v => ret v
  | Raise e => raise e
  end.

(** [self.collection.insert_many(docs)]. *)
Definition collection_insert_many (docs : pyval) : M (list Z) :=
  fun w =>
    let (r, s') := insert_many docs (store w) in
    (r, {| http := http w; clock := clock w; store := s';
           trace := trace w ++ [InsertMany docs] |}).

(** ** The connector's methods *)

Definition default_endpoint : string := "/api/v1/pulses/subscribed".
Definition default_limit : Z := 50.

Definition extract_data (self : OTXETLConnector) (endpoint : string)
    (limit : Z) : M pyval :=
  call ExtractData ;;
  try_except
    (let url := (base_url self ++ endpoint)%string in
     let params := [("limit", limit)] in
     print (ExtractingFrom url) ;;
     response <- requests_get url (headers self) params ;;
     response <- (if status_code response =? 429
                  then print RateLimitReached ;;
                       sleep 60 ;;
                       requests_get url (headers self) params
                  else ret response) ;;
     raise_for_status response ;;
     data <- response_json response ;;
     results <- lift (py_get data "results" (VList [])) ;;
     n <- lift (py_len results) ;;
     print (Extracted n) ;;
     ret data)
    (fun e =>
       if is_RequestException e
       then Some (print (ExtractionError e) ;; ret VNone)
       else if is_JSONDecodeError e
       then Some (print (JSONParseError e) ;; ret VNone)
       else None).

(** The body of the [try] in the loop of [transform_data]: the dict
    display, its values evaluated top to bottom. *)
Definition transform_record (pulse : pyval) : M pyval :=
  pulse_id <- lift (py_get pulse "id" VNone) ;;
  name <- lift (py_get pulse "name" (VStr "")) ;;
  description <- lift (py_get pulse "description" (VStr "")) ;;
  author_name <- lift (py_get pulse "author_name" (VStr "")) ;;
  created <- lift (py_get pulse "created" VNone) ;;
  modified <- lift (py_get pulse "modified" VNone) ;;
  tags <- lift (py_get pulse "tags" (VList [])) ;;
  references <- lift (py_get pulse "references" (VList [])) ;;
  public <- lift (py_get pulse "public" (VBool false)) ;;
  counted <- lift (py_get pulse "indicators" (VList [])) ;;
  indicators_count <- lift (py_len counted) ;;
  indicators <- lift (py_get pulse "indicators" (VList [])) ;;
  malware_families <- lift (py_get pulse "malware_families" (VList [])) ;;
  attack_ids <- lift (py_get pulse "attack_ids" (VList [])) ;;
  ingestion_timestamp <- now ;;
  ret (VDict [("pulse_id", pulse_id);
              ("name", name);
              ("description", description);
              ("author_name", author_name);
              ("created", created);
              ("modified", modified);
              ("tags", tags);
              ("references", references);
              ("public", public);
              ("indicators_count", VInt indicators_count);
              ("indicators", indicators);
              ("malware_families", malware_families);
              ("attack_ids", attack_ids);
              ("ingestion_timestamp", VDatetime ingestion_timestamp);
              ("source", VStr "otx_alienvault");
              ("raw_data", pulse)]).

(** The [for] loop of [transform_data], [transformed_records] being the
    accumulator. *)
Fixpoint transform_loop (pulses : list pyval) (transformed_records : list pyval)
    : M (list pyval) :=
  match pulses with
  | [] => ret transformed_records
  | pulse :: rest =>
      records <- try_except
                   (transformed_record <- transform_record pulse ;;
                    ret (transformed_records ++ [transformed_record]))
                   (fun e => Some (print (TransformRecordError e) ;;
                                   ret transformed_records)) ;;
      transform_loop rest records
  end.

Definition transform_data (raw_data : pyval) : M (list pyval) :=
  call TransformData ;;
  nothing <- (if negb (truthy raw_data) then ret true
              else present <- lift (py_contains "results" raw_data) ;;
                   ret (negb present)) ;;
  if nothing : bool
  then print NoDataToTransform ;; ret []
  else
    results <- lift (py_getitem raw_data "results") ;;
    pulses <- lift (py_iter results) ;;
    transformed_records <- transform_loop pulses [] ;;
    print (Transformed (Z.of_nat (List.length transformed_records))) ;;
    ret transformed_records.

Definition load_data (transformed_data : pyval) : M Z :=
  call LoadData ;;
  if negb (truthy transformed_data)
  then print NoDataToLoad ;; ret 0
  else
    try_except
      (inserted_ids <- collection_insert_many transformed_data ;;
       let inserted_count := Z.of_nat (List.length inserted_ids) in
       print (Loaded inserted_count) ;;
       ret inserted_count)
      (fun e => Some (print (LoadError e) ;; ret 0)).

Definition run_etl_pipeline (self : OTXETLConnector) : M bool :=
  call RunEtlPipeline ;;
  print PipelineStart ;;
  start_time <- now ;;
  print ExtractPhase ;;
  raw_data <- extract_data self default_endpoint default_limit ;;
  if negb (truthy raw_data)
  then print ExtractionFailed ;; ret false
  else
    print TransformPhase ;;
    transformed_data <- transform_data raw_data ;;
    if negb (truthy (VList transformed_data))
    then print TransformationFailed ;; ret false
    else
      print LoadPhase ;;
      loaded_count <- load_data (VList transformed_data) ;;
      end_time <- now ;;
      let duration := end_time - start_time in
      print PipelineComplete ;;
      print (Duration duration) ;;
      print (RecordsProcessed loaded_count) ;;
      ret (0 <? loaded_count).

End Connector.

Arguments world S : clear implicits.
Arguments M S A : clear implicits.

(** ** Two concrete stores *)

(** A store that accepts every bulk insert of a non-empty list, giving
    the documents consecutive identifiers; like the driver it refuses
    anything else with a [TypeError]. *)
#[export] Instance accepting_store : Collection (list pyval) := {
  insert_many docs s :=
    match docs with
    | VList (d :: ds) =>
        (Ok (map Z.of_nat (seq (List.length s) (List.length (d :: ds)))),
         s ++ d :: ds)
    | _ => (Raise TypeError, s)
    end
}.

(** A store that is down: every bulk insert raises. *)
#[export] Instance failing_store : Collection unit := {
  insert_many _ s := (Raise PyMongoError, s)
}.

Definition connector : OTXETLConnector := init (Some "key").

Definition world0 {S} (s : S) (script : list http_outcome) : world S :=
  {| http := script; clock := 1000; store := s; trace := [] |}.

Definition ok_json (v : pyval) : http_outcome :=
  Replies {| status_code := 200; json_body := Ok v |}.

Definition status_only (code : Z) : http_outcome :=
  Replies {| status_code := code; json_body := Raise JSONDecodeError |}.

(** The response of the end-to-end scenario:
    [{"results":[{"id":"p1","name":"X","indicators":[{"a":1},{"a":2}]}]}]. *)
Definition pulse_p1 : pyval :=
  VDict [("id", VStr "p1"); ("name", VStr "X");
         ("indicators", VList [VDict [("a", VInt 1)]; VDict [("a", VInt 2)]])].

Definition scenario_response : pyval := VDict [("results", VList [pulse_p1])].

(** ** Observations on traces and results *)

Definition method_eqb (a b : method) : bool :=
  match a, b with
  | ExtractData, ExtractData
  | TransformData, TransformData
  | LoadData, LoadData
  | RunEtlPipeline, RunEtlPipeline => true
  | _, _ => false
  end.

Definition is_call (m : method) (e : event) : bool :=
  match e with
  | Call m' => method_eqb m m'
  | _ => false
  end.

(** How many times method [m] has been entered. *)
Definition calls (m : method) (t : list event) : nat :=
  List.length (filter (is_call m) t).

Definition is_print (e : event) : bool :=
  match e with
  | Print _ => true
  | _ => false
  end.

Definition is_insert (e : event) : bool :=
  match e with
  | InsertMany _ => true
  | _ => false
  end.

Fixpoint filter_map {A B : Type} (f : A -> option B) (l : list A) : list B :=
  match l with
  | [] => []
  | x :: l' =>
      match f x with
      | Some y => y :: filter_map f l'
      | None => filter_map f l'
      end
  end.

Definition is_some {A : Type} (o : option A) : bool :=
  match o with
  | Some _ => true
  | None => false
  end.

Section Observers.

Context {S : Type} {store_ops : Collection S}.

(** The outcome of mapping one raw record in world [w]: the document, or
    nothing when the mapping raises. *)
Definition mapped (w : world S) (pulse : pyval) : option pyval :=
  match fst (transform_record pulse w) with
  | Ok doc => Some doc
  | Raise _ => None
  end.

(** The world in which [run_etl_pipeline] calls [extract_data]. *)
Definition pipeline_start (w : world S) : world S :=
  emit (Print ExtractPhase)
    (emit (Print PipelineStart) (emit (Call RunEtlPipeline) w)).

(** The world in which [run_etl_pipeline] returns after the load phase. *)
Definition pipeline_end (start_time loaded_count : Z) (w : world S) : world S :=
  emit (Print (RecordsProcessed loaded_count))
    (emit (Print (Duration (clock w - start_time)))
       (emit (Print PipelineComplete) w)).

Definition set_http (script : list http_outcome) (w : world S) : world S :=
  {| http := script; clock := clock w; store := store w; trace := trace w |}.

End Observers.

(** Status codes on which [raise_for_status] raises. *)
Definition error_status (code : Z) : bool := (400 <=? code) && (code <? 600).

Definition is_429 (o : http_outcome) : bool :=
  match o with
  | Replies r => status_code r =? 429
  | Fails => false
  end.

(** The reply [extract_data] ends up using: the first one, or the one to
    the retry when the first has status 429. *)
Definition reply_used (script : list http_outcome) : http_outcome :=
  match script with
  | o :: rest => if is_429 o then hd Fails rest else o
  | [] => Fails
  end.

(** [doc['raw_data']], the record a document was derived from. *)
Definition raw_data_of (doc : pyval) : pyval :=
  match py_getitem doc "raw_data" with
  | Ok pulse => pulse
  | Raise _ => VNone
  end.

(** The document invariant: [raw_data] is the source record and
    [indicators_count] is the length of [indicators]. *)
Definition normalized_from (pulse doc : pyval) : Prop :=
  py_getitem doc "raw_data" = Ok pulse /\
  exists ind n,
    py_getitem doc "indicators" = Ok ind /\
    py_getitem doc "indicators_count" = Ok (VInt n) /\
    py_len ind = Ok n.

(** The document of [pulse_p1] when the clock reads 1000. *)
Definition scenario_doc : pyval :=
  VDict [("pulse_id", VStr "p1"); ("name", VStr "X");
         ("description", VStr ""); ("author_name", VStr "");
         ("created", VNone); ("modified", VNone);
         ("tags", VList []); ("references", VList []);
         ("public", VBool false); ("indicators_count", VInt 2);
         ("indicators", VList [VDict [("a", VInt 1)]; VDict [("a", VInt 2)]]);
         ("malware_families", VList []); ("attack_ids", VList []);
         ("ingestion_timestamp", VDatetime 1000);
         ("source", VStr "otx_alienvault");
         ("raw_data", pulse_p1)].

(** A batch of three records of which the first, not being a dict, raises
    during mapping. *)
Definition mixed_batch : list (string * pyval) :=
  [("results", VList [VInt 7; pulse_p1; VDict [("id", VStr "p2")]])].

(** ** The connection probe and the entry point *)

(** Lines printed by [test_connection] and [main]. *)
Inductive probe_msg : Type :=
| TestingConnections
| ApiConnectionSuccessful
| ApiConnectionFailed (status : Z)
| ApiConnectionError (e : exn)
| MongoConnectionSuccessful
| MongoConnectionError (e : exn)
| ConnectionTestsFailed
| PipelineSucceeded
| PipelineFailed.

(** What the probe and the entry point do besides what the world's trace
    records: their prints and the liveness command. *)
Inductive cli_event : Type :=
| Say (msg : probe_msg)
| Ping.

(** [self.client.admin.command('ping')]: the liveness command of the
    store, which either raises or returns. *)
Class Client (S : Type) : Type := {
  ping : S -> result unit * S
}.

Section EntryPoint.

Context {S : Type} {store_ops : Collection S} {client_ops : Client S}.

(** The world of the pipeline together with the console of the probe and
    of [main]; the console is kept apart from the pipeline's trace. *)
Record session : Type := {
  etl : world S;
  console : list cli_event
}.

Definition CLI (A : Type) : Type := session -> result A * session.

Definition cli_ret {A} (a : A) : CLI A := fun s => (Ok a, s).

Definition cli_bind {A B} (m : CLI A) (k : A -> CLI B) : CLI B :=
  fun s =>
    match m s with
    | (Ok a, s') => k a s'
    | (Raise e, s') => (Raise e, s')
    end.

(** [try: m  except Exception as e: h e]. *)
Definition cli_try {A} (m : CLI A) (h : exn -> CLI A) : CLI A :=
  fun s =>
    match m s with
    | (Ok a, s') => (Ok a, s')
    | (Raise e, s') => h e s'
    end.

(** An action of the connector, run on the world of the session. *)
Definition in_etl {A} (m : M S A) : CLI A :=
  fun s =>
    let (r, w') := m (etl s) in
    (r, {| etl := w'; console := console s |}).

Definition say (msg : probe_msg) : CLI unit :=
  fun s => (Ok tt, {| etl := etl s; console := console s ++ [Say msg] |}).

Definition client_ping : CLI unit :=
  fun s =>
    let (r, st) := ping (store (etl s)) in
    (r, {| etl := {| http := http (etl s); clock := clock (etl s);
                     store := st; trace := trace (etl s) |};
           console := console s ++ [Ping] |}).

Notation "x <- m ;; k" := (cli_bind m (fun x => k))
  (at level 61, m at next level, right associativity).
Notation "m ;; k" := (cli_bind m (fun _ => k))
  (at level 61, right associativity).

Definition probe_endpoint : string := "/api/v1/user/me".

(** The first [try] of [test_connection] either falls through ([None]) or
    has returned ([Some b]). *)
Definition test_connection (self : OTXETLConnector) : CLI bool :=
  say TestingConnections ;;
  returned <- cli_try
                (response <- in_etl (requests_get
                                       (base_url self ++ probe_endpoint)%string
                                       (headers self) []) ;;
                 if status_code response =? 200
                 then say ApiConnectionSuccessful ;; cli_ret None
                 else say (ApiConnectionFailed (status_code response)) ;;
                      cli_ret (Some false))
                (fun e => say (ApiConnectionError e) ;; cli_ret (Some false)) ;;
  match returned with
  | Some b => cli_ret b
  | None =>
      cli_try
        (client_ping ;;
         say MongoConnectionSuccessful ;;
         cli_ret true)
        (fun e => say (MongoConnectionError e) ;; cli_ret false)
  end.

(** [main()], the key being what [os.getenv('OTX_API_KEY')] gives; the
    construction of the connector is taken to succeed. *)
Definition main (key : option string) : CLI unit :=
  let connector := init key in
  ok <- test_connection connector ;;
  if negb ok
  then say ConnectionTestsFailed ;; cli_ret tt
  else
    success <- in_etl (run_etl_pipeline connector) ;;
    if success : bool
    then say PipelineSucceeded
    else say PipelineFailed.

End EntryPoint.

Arguments session S : clear implicits.
Arguments CLI S A : clear implicits.

(** The liveness command answers on the accepting store and raises on the
    store that is down. *)
#[export] Instance accepting_client : Client (list pyval) := {
  ping s := (Ok tt, s)
}.

#[export] Instance failing_client : Client unit := {
  ping s := (Raise PyMongoError, s)
}.

Definition session0 {S} (s : S) (script : list http_outcome) : session S :=
  {| etl := world0 s script; console := [] |}.

(** The API check of the probe passes: the next reply is a response of
    status 200. *)
Definition api_ok (script : list http_outcome) : bool :=
  match script with
  | Replies r :: _ => status_code r =? 200
  | _ => false
  end.

Section ProbeWorld.

Context {S : Type}.

(** The world after the request of the probe, [st] being the store. *)
Definition after_probe_request (self : OTXETLConnector) (st : S)
    (w : world S) : world S :=
  {| http := tl (http w); clock := clock w; store := st;
     trace := trace w ++ [HttpGet (base_url self ++ probe_endpoint)%string
                            (headers self) []] |}.

End ProbeWorld.

(** ** Further observations *)

Definition is_get (e : event) : bool :=
  match e with
  | HttpGet _ _ _ => true
  | _ => false
  end.

Definition is_ping (e : cli_event) : bool :=
  match e with
  | Ping => true
  | Say _ => false
  end.

(** Values that have a length and can be iterated: str, list, dict. *)
Definition sized (v : pyval) : bool :=
  match v with
  | VStr _ | VList _ | VDict _ => true
  | _ => false
  end.

(** A JSON object whose [indicators], when present, is sized. *)
Definition mappable (pulse : pyval) : bool :=
  match pulse with
  | VDict d =>
      sized (match lookup "indicators" d with
             | Some v => v
             | None => VList []
             end)
  | _ => false
  end.

(** Document key, source key and default of the fields copied from a
    record. *)
Definition copied_fields : list (string * string * pyval) :=
  [("pulse_id", "id", VNone);
   ("name", "name", VStr "");
   ("description", "description", VStr "");
   ("author_name", "author_name", VStr "");
   ("created", "created", VNone);
   ("modified", "modified", VNone);
   ("tags", "tags", VList []);
   ("references", "references", VList []);
   ("public", "public", VBool false);
   ("indicators", "indicators", VList []);
   ("malware_families", "malware_families", VList []);
   ("attack_ids", "attack_ids", VList [])].

Definition document_keys : list string :=
  ["pulse_id"; "name"; "description"; "author_name"; "created"; "modified";
   "tags"; "references"; "public"; "indicators_count"; "indicators";
   "malware_families"; "attack_ids"; "ingestion_timestamp"; "source";
   "raw_data"].

Definition copies (pulse_fields : list (string * pyval)) (doc : pyval)
    (field : string * string * pyval) : Prop :=
  let '(doc_key, key, default) := field in
  py_getitem doc doc_key =
    Ok (match lookup key pulse_fields with
        | Some v => v
        | None => default
        end).

Section SkipLog.

Context {S : Type} {store_ops : Collection S}.

(** The line printed for a record that raises during mapping. *)
Definition skip_line (w : world S) (pulse : pyval) : option event :=
  match fst (transform_record pulse w) with
  | Ok _ => None
  | Raise e => Some (Print (TransformRecordError e))
  end.

End SkipLog.

(** A record with every optional field absent but [name], which is
    present and null. *)
Definition pulse_null_name : pyval := VDict [("id", VStr "p3"); ("name", VNone)].

(** ** Generic list and trace lemmas *)

Lemma filter_map_ext {A B : Type} (f g : A -> option B) (l : list A) :
  (forall x, f x = g x) -> filter_map f l = filter_map g l.
Proof.
  intros Hfg. induction l as [|x l IH]; simpl.
  - reflexivity.
  - rewrite Hfg, IH. reflexivity.
Qed.

Lemma filter_map_length {A B : Type} (f : A -> option B) (l : list A) :
  List.length (filter_map f l) = List.length (filter (fun x => is_some (f x)) l).
Proof.
  induction l as [|x l IH]; simpl.
  - reflexivity.
  - destruct (f x); simpl; rewrite IH; reflexivity.
Qed.

Lemma filter_map_in {A B : Type} (f : A -> option B) (l : list A) (y : B) :
  In y (filter_map f l) <-> exists x, In x l /\ f x = Some y.
Proof.
  induction l as [|x l IH]; simpl.
  - split; [tauto | intros [x [[] _]]].
  - destruct (f x) as [z|] eqn:Hx; simpl; rewrite IH; split.
    + intros [->|[x' [Hin Hf]]]; [exists x | exists x']; auto.
    + intros [x' [[->|Hin] Hf]].
      * left. congruence.
      * right. exists x'. auto.
    + intros [x' [Hin Hf]]. exists x'. auto.
    + intros [x' [[->|Hin] Hf]]; [congruence | exists x'; auto].
Qed.

Lemma filter_length_all {A : Type} (p : A -> bool) (l : list A) :
  List.length (filter p l) = List.length l <-> forall x, In x l -> p x = true.
Proof.
  induction l as [|x l IH]; simpl.
  - split; [intros _ x [] | reflexivity].
  - pose proof (filter_length_le p l) as Hle.
    destruct (p x) eqn:Hx; simpl; split.
    + intros Hlen y [->|Hy]; [assumption|].
      apply IH; [lia | assumption].
    + intros Hall. f_equal. apply IH. intros y Hy. apply Hall. auto.
    + intros Hlen. lia.
    + intros Hall. specialize (Hall x (or_introl eq_refl)). congruence.
Qed.

Lemma calls_app (m : method) (t1 t2 : list event) :
  calls m (t1 ++ t2) = (calls m t1 + calls m t2)%nat.
Proof.
  unfold calls. rewrite filter_app, length_app. reflexivity.
Qed.

Lemma calls_prints (m : method) (t l : list event) :
  forallb is_print l = true -> calls m (t ++ l) = calls m t.
Proof.
  intros Hl. rewrite calls_app.
  assert (calls m l = 0%nat) as ->; [|lia].
  unfold calls. induction l as [|e l IH]; simpl in *.
  - reflexivity.
  - apply andb_prop in Hl as [He Hl]. destruct e; simpl in *; try discriminate.
    auto.
Qed.

(** ** The transformer *)

Section Transformer.

Context {S : Type} {store_ops : Collection S}.

Lemma transform_record_run (pulse : pyval) (w : world S) :
  transform_record pulse w = (fst (transform_record pulse w), w).
Proof.
  destruct pulse; try reflexivity.
  unfold transform_record, bind, lift, now, ret. simpl.
  destruct (py_len _); reflexivity.
Qed.

Lemma transform_record_clock (pulse : pyval) (w1 w2 : world S) :
  clock w1 = clock w2 ->
  fst (transform_record pulse w1) = fst (transform_record pulse w2).
Proof.
  intros Hc. destruct pulse; try reflexivity.
  unfold transform_record, bind, lift, now, ret. simpl.
  destruct (py_len _); simpl; rewrite ?Hc; reflexivity.
Qed.

Lemma mapped_clock (w1 w2 : world S) (pulse : pyval) :
  clock w1 = clock w2 -> mapped w1 pulse = mapped w2 pulse.
Proof.
  intros Hc. unfold mapped. rewrite (transform_record_clock pulse w1 w2 Hc).
  reflexivity.
Qed.

(** A record is mapped exactly when it is a dict whose indicators, if
    present, have a length; the document is then the sixteen-key dict. *)
Lemma mapped_some (w : world S) (pulse doc : pyval) :
  mapped w pulse = Some doc ->
  exists d ind n,
    pulse = VDict d /\
    py_get pulse "indicators" (VList []) = Ok ind /\
    py_len ind = Ok n /\
    py_getitem doc "indicators" = Ok ind /\
    py_getitem doc "indicators_count" = Ok (VInt n) /\
    py_getitem doc "raw_data" = Ok pulse.
Proof.
  unfold mapped. destruct pulse; try discriminate.
  unfold transform_record, bind, lift, now, ret. simpl.
  destruct (py_len _) as [n|e] eqn:Hlen; simpl; [|discriminate].
  intros [= <-]. exists d. eexists. exists n.
  repeat split; try reflexivity. exact Hlen.
Qed.

(** The loop never raises: it appends to the accumulator the documents of
    the records that map, in order, and only prints. *)
Lemma transform_loop_spec (pulses : list pyval) :
  forall (acc : list pyval) (w : world S),
  exists l,
    transform_loop pulses acc w =
      (Ok (acc ++ filter_map (mapped w) pulses),
       {| http := http w; clock := clock w; store := store w;
          trace := trace w ++ l |}) /\
    forallb is_print l = true.
Proof.
  induction pulses as [|pulse rest IH]; intros acc w.
  - exists []. simpl. unfold ret. rewrite !app_nil_r. destruct w; auto.
  - simpl. unfold bind at 1. unfold try_except, bind at 1.
    rewrite transform_record_run. unfold mapped at 1.
    destruct (fst (transform_record pulse w)) as [doc|e] eqn:Hdoc.
    + unfold ret at 1. destruct (IH (acc ++ [doc]) w) as [l [Hrun Hl]].
      exists l. rewrite Hrun, <- app_assoc. auto.
    + unfold bind, print, ret. simpl.
      destruct (IH acc (emit (Print (TransformRecordError e)) w)) as [l [Hrun Hl]].
      exists (Print (TransformRecordError e) :: l). rewrite Hrun. simpl.
      rewrite <- app_assoc. simpl. split; [|assumption].
      rewrite (filter_map_ext _ (mapped w)); [reflexivity|].
      intros p. apply mapped_clock. reflexivity.
Qed.

(** What [transform_data] does on a dict whose [results] is a list. *)
Lemma transform_data_results (d : list (string * pyval)) (pulses : list pyval)
    (w : world S) :
  lookup "results" d = Some (VList pulses) ->
  exists l,
    transform_data (VDict d) w =
      (Ok (filter_map (mapped w) pulses),
       {| http := http w; clock := clock w; store := store w;
          trace := trace w ++ Call TransformData :: l |}) /\
    forallb is_print l = true.
Proof.
  intros Hres.
  assert (truthy (VDict d) = true) as Ht by (destruct d; [discriminate|reflexivity]).
  destruct (transform_loop_spec pulses [] (emit (Call TransformData) w))
    as [l [Hrun Hl]].
  unfold transform_data, bind, call, lift, py_contains, py_getitem, py_iter.
  rewrite Ht, Hres. unfold ret at 1. simpl.
  rewrite Hrun. unfold print, ret. simpl.
  rewrite (filter_map_ext _ (mapped w)) by (intros p; apply mapped_clock; reflexivity).
  exists (l ++ [Print (Transformed (Z.of_nat
            (List.length (filter_map (mapped w) pulses))))]).
  split.
  - unfold emit. simpl. rewrite <- !app_assoc. reflexivity.
  - rewrite forallb_app, Hl. reflexivity.
Qed.

Lemma mapped_normalized (w : world S) (pulse doc : pyval) :
  mapped w pulse = Some doc -> normalized_from pulse doc.
Proof.
  intros Hm. apply mapped_some in Hm as (d & ind & n & _ & _ & Hlen & Hi & Hc & Hr).
  split; [exact Hr|]. exists ind, n. auto.
Qed.

Lemma raw_data_of_filter_map (w : world S) (pulses : list pyval) :
  map raw_data_of (filter_map (mapped w) pulses) =
  filter (fun p => is_some (mapped w p)) pulses.
Proof.
  induction pulses as [|p rest IH]; simpl.
  - reflexivity.
  - destruct (mapped w p) as [doc|] eqn:Hm; simpl; [|exact IH].
    apply mapped_normalized in Hm as [Hr _].
    rewrite IH. unfold raw_data_of. rewrite Hr. reflexivity.
Qed.

(** C2: every document returned by [transform_data] comes from one of the
    iterated raw records, its [raw_data] is that record verbatim and its
    [indicators_count] is [len] of its [indicators]. *)
Theorem transform_data_document_invariant (raw : pyval) (w w' : world S)
    (docs : list pyval) (doc : pyval) :
  transform_data raw w = (Ok docs, w') ->
  In doc docs ->
  exists results pulses pulse,
    py_getitem raw "results" = Ok results /\
    py_iter results = Ok pulses /\
    In pulse pulses /\
    normalized_from pulse doc.
Proof.
  unfold transform_data, bind, call, lift.
  destruct (truthy raw); simpl.
  - destruct (py_contains "results" raw) as [[|]|e]; simpl.
    + destruct (py_getitem raw "results") as [results|e] eqn:Hres; simpl;
        [|discriminate].
      destruct (py_iter results) as [pulses|e] eqn:Hiter; simpl; [|discriminate].
      destruct (transform_loop_spec pulses [] (emit (Call TransformData) w))
        as [l [Hrun _]].
      rewrite Hrun. unfold print, ret. simpl. intros [= <- _] Hin.
      apply filter_map_in in Hin as [pulse [Hin Hm]].
      exists results, pulses, pulse.
      split; [reflexivity|]. split; [exact Hiter|]. split; [assumption|].
      eapply mapped_normalized. exact Hm.
    + unfold print, ret. simpl. intros [= <- _] [].
    + discriminate.
  - unfold print, ret. simpl. intros [= <- _] [].
Qed.

(** C3: on a response whose [results] is a list, [transform_data] returns
    at most one document per record, as many as there are records exactly
    when no record raises during mapping, and every record that maps has
    its document in the output whatever the other records do. *)
Theorem transform_data_length_isolation (d : list (string * pyval))
    (pulses : list pyval) (w : world S) :
  lookup "results" d = Some (VList pulses) ->
  exists docs w',
    transform_data (VDict d) w = (Ok docs, w') /\
    (List.length docs <= List.length pulses)%nat /\
    (List.length docs = List.length pulses <->
     forall p, In p pulses -> exists doc, fst (transform_record p w) = Ok doc) /\
    (forall p doc, In p pulses -> fst (transform_record p w) = Ok doc ->
                   In doc docs) /\
    List.length docs =
      List.length (filter (fun p => is_some (mapped w p)) pulses).
Proof.
  intros Hres. destruct (transform_data_results d pulses w Hres) as [l [Hrun _]].
  eexists. eexists. split; [exact Hrun|].
  rewrite filter_map_length. repeat split.
  - apply filter_length_le.
  - intros Hlen p Hin.
    rewrite filter_length_all in Hlen. specialize (Hlen p Hin).
    unfold mapped in Hlen. destruct (fst (transform_record p w)) as [doc|e].
    + exists doc. reflexivity.
    + discriminate.
  - intros Hall. apply filter_length_all. intros p Hin.
    destruct (Hall p Hin) as [doc Hdoc]. unfold mapped. rewrite Hdoc. reflexivity.
  - intros p doc Hin Hdoc. apply filter_map_in. exists p. split; [assumption|].
    unfold mapped. rewrite Hdoc. reflexivity.
Qed.

(** C6: on an input that is falsy, or in which the membership test for
    ['results'] is negative, [transform_data] prints its notice and
    returns the empty list without raising. *)
Theorem transform_data_nothing_to_transform (raw : pyval) (w : world S) :
  truthy raw = false \/ py_contains "results" raw = Ok false ->
  transform_data raw w =
    (Ok [], emit (Print NoDataToTransform) (emit (Call TransformData) w)).
Proof.
  intros H. unfold transform_data, bind, call, lift, print, ret.
  destruct (truthy raw) eqn:Ht; simpl.
  - destruct H as [H|H]; [discriminate|]. rewrite H. reflexivity.
  - reflexivity.
Qed.

(** C7: on a response whose [results] is a list, the documents are those
    of the records that map, in the order of the records: the output is
    the filter-map of the mapping over [results], and the source records
    of the output are the surviving records in input order. *)
Theorem transform_data_order_preserving (d : list (string * pyval))
    (pulses : list pyval) (w : world S) :
  lookup "results" d = Some (VList pulses) ->
  exists docs w',
    transform_data (VDict d) w = (Ok docs, w') /\
    docs = filter_map (mapped w) pulses /\
    map raw_data_of docs = filter (fun p => is_some (mapped w p)) pulses.
Proof.
  intros Hres. destruct (transform_data_results d pulses w Hres) as [l [Hrun _]].
  eexists. eexists. split; [exact Hrun|]. split; [reflexivity|].
  apply raw_data_of_filter_map.
Qed.

End Transformer.

(** ** The extractor *)

Section Extractor.

Context {S : Type} {store_ops : Collection S}.

Lemma py_len_raise (v : pyval) (e : exn) : py_len v = Raise e -> e = TypeError.
Proof.
  destruct v; simpl; congruence.
Qed.

Ltac run_extract :=
  unfold extract_data, bind, try_except, call, print, ret, raise, lift,
    requests_get, sleep, raise_for_status, response_json, emit, set_http;
  simpl.

Ltac split_case :=
  match goal with
  | |- context [match ?x with _ => _ end] => is_var x; destruct x
  | |- context [status_code ?r =? 429] =>
      destruct (status_code r =? 429) eqn:?
  | |- context [(400 <=? status_code ?r) && (status_code ?r <? 600)] =>
      destruct ((400 <=? status_code r) && (status_code r <? 600)) eqn:?
  | |- context [json_body ?r] => destruct (json_body r) eqn:?
  | |- context [is_RequestException ?e] => is_var e; destruct e
  | |- context [py_get ?v _ _] => is_var v; destruct v
  | |- context [py_len ?v] =>
      let H := fresh "Hlen" in
      destruct (py_len v) eqn:H; [|apply py_len_raise in H; subst]
  end; simpl.

Ltac split_cases := repeat split_case.

(** The effects of [extract_data] after its entry are requests, sleeps
    and prints: it enters no other method. *)
Lemma extract_data_calls (self : OTXETLConnector) (endpoint : string)
    (limit : Z) (w : world S) (m : method) :
  m <> ExtractData ->
  calls m (trace (snd (extract_data self endpoint limit w))) = calls m (trace w).
Proof.
  intros Hm. destruct w as [script c s t]. run_extract.
  assert (method_eqb m ExtractData = false) as Hcall
    by (destruct m; simpl; congruence).
  split_cases; rewrite ?calls_app; unfold calls; simpl; rewrite ?Hcall; simpl; lia.
Qed.

(** The store is out of reach of [extract_data]. *)
Lemma extract_data_store (self : OTXETLConnector) (endpoint : string)
    (limit : Z) (w : world S) :
  store (snd (extract_data self endpoint limit w)) = store w.
Proof.
  destruct w as [script c s t]. run_extract. split_cases; reflexivity.
Qed.

(** What [extract_data] returns is [None] or a dict. *)
Lemma extract_data_returns (self : OTXETLConnector) (endpoint : string)
    (limit : Z) (w w' : world S) (raw : pyval) :
  extract_data self endpoint limit w = (Ok raw, w') ->
  raw = VNone \/
  exists d n, raw = VDict d /\
              py_len (match lookup "results" d with
                      | Some v => v
                      | None => VList []
                      end) = Ok n.
Proof.
  destruct w as [script c s t]. run_extract.
  split_cases; intros [= <- _]; auto;
    right; eexists; eexists; (split; [reflexivity | eassumption]).
Qed.

(** The result of [extract_data] is decided by the reply it uses. *)
Lemma extract_data_result (self : OTXETLConnector) (endpoint : string)
    (limit : Z) (w : world S) :
  fst (extract_data self endpoint limit w) =
  match reply_used (http w) with
  | Fails => Ok VNone
  | Replies r =>
      if error_status (status_code r) then Ok VNone
      else match json_body r with
           | Raise e =>
               if is_RequestException e || is_JSONDecodeError e
               then Ok VNone
               else Raise e
           | Ok data =>
               match py_get data "results" (VList []) with
               | Ok results =>
                   match py_len results with
                   | Ok _ => Ok data
                   | Raise e => Raise e
                   end
               | Raise e => Raise e
               end
           end
  end.
Proof.
  destruct w as [script c s t]. unfold reply_used, is_429, error_status.
  run_extract. split_cases; reflexivity.
Qed.

(** C4: [extract_data] returns [None], raising nothing, when the reply it
    uses is a transport failure, carries a 4xx or 5xx status or has a body
    that is not valid JSON, on which [response.json()] raises
    [JSONDecodeError]; when [response.json()] returns a JSON object for a
    reply of another status, that object is returned as parsed provided
    its [results], if present, has a length. *)
Theorem extract_data_failures_to_none (self : OTXETLConnector)
    (endpoint : string) (limit : Z) (w : world S) :
  let result := fst (extract_data self endpoint limit w) in
  (reply_used (http w) = Fails -> result = Ok VNone) /\
  (forall r, reply_used (http w) = Replies r ->
             error_status (status_code r) = true -> result = Ok VNone) /\
  (forall r, reply_used (http w) = Replies r ->
             json_body r = Raise JSONDecodeError -> result = Ok VNone) /\
  (forall r d n, reply_used (http w) = Replies r ->
                 error_status (status_code r) = false ->
                 json_body r = Ok (VDict d) ->
                 py_len (match lookup "results" d with
                         | Some v => v
                         | None => VList []
                         end) = Ok n ->
                 result = Ok (VDict d)).
Proof.
  cbv zeta. rewrite extract_data_result. repeat split.
  - intros ->. reflexivity.
  - intros r -> ->. reflexivity.
  - intros r -> ->. destruct (error_status (status_code r)); reflexivity.
  - intros r d n -> -> -> Hlen. simpl. rewrite Hlen. reflexivity.
Qed.

(** C5: when the first reply has status 429, [extract_data] sleeps 60
    seconds, issues the same request once more and nothing further, and
    returns what it returns on the retry's reply alone; when that reply is
    429 again the result is [None], with no third request. *)
Theorem extract_data_rate_limit_retry (self : OTXETLConnector)
    (endpoint : string) (limit : Z) (w : world S) (r1 : response)
    (rest : list http_outcome) :
  http w = Replies r1 :: rest ->
  status_code r1 = 429 ->
  let url := (base_url self ++ endpoint)%string in
  let get := HttpGet url (headers self) [("limit", limit)] in
  let run := extract_data self endpoint limit w in
  (exists suffix,
     trace (snd run) =
       trace w ++ [Call ExtractData; Print (ExtractingFrom url); get;
                   Print RateLimitReached; Sleep 60; get] ++ suffix /\
     forallb is_print suffix = true) /\
  clock (snd run) = clock w + 60 /\
  http (snd run) = tl rest /\
  fst run = (if is_429 (hd Fails rest) then Ok VNone
             else fst (extract_data self endpoint limit (set_http rest w))) /\
  (is_429 (hd Fails rest) = true ->
   trace (snd run) =
     trace w ++ [Call ExtractData; Print (ExtractingFrom url); get;
                 Print RateLimitReached; Sleep 60; get;
                 Print (ExtractionError HTTPError)]).
Proof.
  destruct w as [script c s t]. cbn [http clock trace]. intros -> H429.
  run_extract. rewrite H429. simpl.
  destruct rest as [|[|r2] rest']; simpl.
  - repeat split; try discriminate.
    exists [Print (ExtractionError RequestException)].
    rewrite <- !app_assoc. auto.
  - repeat split; try discriminate.
    exists [Print (ExtractionError RequestException)].
    rewrite <- !app_assoc. auto.
  - destruct (status_code r2 =? 429) eqn:H2.
    + apply Z.eqb_eq in H2. rewrite H2. simpl. repeat split.
      * exists [Print (ExtractionError HTTPError)].
        rewrite <- !app_assoc. auto.
      * intros _. rewrite <- !app_assoc. reflexivity.
    + split; [|split; [|split; [|split]]]; try discriminate.
      * split_cases; eexists; rewrite <- !app_assoc; simpl;
          (split; [reflexivity|]); reflexivity.
      * split_cases; reflexivity.
      * split_cases; reflexivity.
      * split_cases; reflexivity.
Qed.

End Extractor.

(** ** The loader *)

Section Loader.

Context {S : Type} {store_ops : Collection S}.

(** [load_data] never raises; on a truthy argument it issues one bulk
    insert and its result follows the outcome of that insert. *)
Lemma load_data_run (docs : pyval) (w : world S) :
  truthy docs = true ->
  load_data docs w =
    let w1 := {| http := http w; clock := clock w;
                 store := snd (insert_many docs (store w));
                 trace := (trace w ++ [Call LoadData]) ++ [InsertMany docs] |} in
    match fst (insert_many docs (store w)) with
    | Ok ids =>
        (Ok (Z.of_nat (List.length ids)),
         emit (Print (Loaded (Z.of_nat (List.length ids)))) w1)
    | Raise e => (Ok 0, emit (Print (LoadError e)) w1)
    end.
Proof.
  intros Ht.
  unfold load_data, bind, call, try_except, collection_insert_many, print, ret.
  rewrite Ht. simpl.
  destruct (insert_many docs (store w)) as [[ids|e] s']; reflexivity.
Qed.

Lemma load_data_total (docs : pyval) (w : world S) :
  exists n w', load_data docs w = (Ok n, w') /\
               calls TransformData (trace w') = calls TransformData (trace w).
Proof.
  destruct (truthy docs) eqn:Ht.
  - rewrite (load_data_run docs w Ht). cbv zeta.
    destruct (fst (insert_many docs (store w))); eexists; eexists;
      (split; [reflexivity|]); simpl; rewrite !calls_app; unfold calls; simpl; lia.
  - unfold load_data, bind, call, print, ret. rewrite Ht. simpl.
    eexists. eexists. split; [reflexivity|].
    simpl. rewrite !calls_app. unfold calls. simpl. lia.
Qed.

(** C8: on a falsy argument, the empty list in particular, [load_data]
    returns 0 having only printed its notice: the store is as it was and
    no bulk insert was issued. *)
Theorem load_data_empty (docs : pyval) (w : world S) :
  truthy docs = false ->
  load_data docs w =
    (Ok 0, emit (Print NoDataToLoad) (emit (Call LoadData) w)) /\
  store (snd (load_data docs w)) = store w /\
  filter is_insert (trace (snd (load_data docs w))) = filter is_insert (trace w).
Proof.
  intros Ht. unfold load_data, bind, call, print, ret. rewrite Ht. simpl.
  repeat split. rewrite !filter_app. simpl. rewrite !app_nil_r. reflexivity.
Qed.

(** C9: on a non-empty list (any truthy argument), [load_data] returns 0
    when the bulk insert raises, whatever the error, and the number of
    identifiers the store returns when it succeeds; it raises in neither
    case. *)
Theorem load_data_insert_outcome (docs : pyval) (w : world S) :
  truthy docs = true ->
  (forall e s', insert_many docs (store w) = (Raise e, s') ->
                fst (load_data docs w) = Ok 0) /\
  (forall ids s', insert_many docs (store w) = (Ok ids, s') ->
                  fst (load_data docs w) = Ok (Z.of_nat (List.length ids))) /\
  (exists n, fst (load_data docs w) = Ok n) /\
  List.length (filter is_insert (trace (snd (load_data docs w)))) =
    Datatypes.S (List.length (filter is_insert (trace w))).
Proof.
  intros Ht. rewrite (load_data_run docs w Ht). cbv zeta. repeat split.
  - intros e s' ->. reflexivity.
  - intros ids s' ->. reflexivity.
  - destruct (fst (insert_many docs (store w))); eexists; reflexivity.
  - destruct (fst (insert_many docs (store w))); simpl;
      rewrite !filter_app, !length_app; simpl; lia.
Qed.

End Loader.

(** ** The orchestrator *)

Section Orchestrator.

Context {S : Type} {store_ops : Collection S}.

(** [run_etl_pipeline] phase by phase. *)
Lemma run_etl_pipeline_phases (self : OTXETLConnector) (w : world S) :
  run_etl_pipeline self w =
  match extract_data self default_endpoint default_limit (pipeline_start w) with
  | (Raise e, w1) => (Raise e, w1)
  | (Ok raw, w1) =>
      if truthy raw then
        match transform_data raw (emit (Print TransformPhase) w1) with
        | (Raise e, w2) => (Raise e, w2)
        | (Ok docs, w2) =>
            match docs with
            | [] => (Ok false, emit (Print TransformationFailed) w2)
            | _ :: _ =>
                match load_data (VList docs) (emit (Print LoadPhase) w2) with
                | (Raise e, w3) => (Raise e, w3)
                | (Ok n, w3) => (Ok (0 <? n), pipeline_end (clock w) n w3)
                end
            end
        end
      else (Ok false, emit (Print ExtractionFailed) w1)
  end.
Proof.
  unfold run_etl_pipeline, pipeline_start, pipeline_end.
  unfold bind at 1. unfold call at 1. unfold bind at 1. unfold print at 1.
  unfold bind at 1. unfold now at 1. unfold bind at 1. unfold print at 1.
  unfold bind at 1. cbn [clock emit].
  destruct (extract_data _ _ _ _) as [[raw|e] w1]; [|reflexivity].
  destruct (truthy raw); simpl; [|reflexivity].
  unfold bind at 1. unfold print at 1. unfold bind at 1.
  destruct (transform_data _ _) as [[docs|e] w2]; [|reflexivity].
  destruct docs as [|doc docs]; simpl; [reflexivity|].
  unfold bind at 1. unfold print at 1. unfold bind at 1.
  destruct (load_data _ _) as [[n|e] w3]; reflexivity.
Qed.

(** After its entry [transform_data] only prints, whatever its outcome. *)
Lemma transform_data_trace (raw : pyval) (w : world S) :
  exists l,
    trace (snd (transform_data raw w)) = trace w ++ Call TransformData :: l /\
    forallb is_print l = true.
Proof.
  unfold transform_data, bind, call, lift.
  destruct (truthy raw); simpl.
  - destruct (py_contains "results" raw) as [[|]|e]; simpl.
    + destruct (py_getitem raw "results") as [results|e]; simpl.
      * destruct (py_iter results) as [pulses|e]; simpl.
        -- destruct (transform_loop_spec pulses [] (emit (Call TransformData) w))
             as [l [Hrun Hl]].
           rewrite Hrun. unfold print, ret, emit. simpl.
           eexists. rewrite <- !app_assoc. simpl. split; [reflexivity|].
           rewrite forallb_app, Hl. reflexivity.
        -- exists []. auto.
      * exists []. auto.
    + unfold print, ret, emit. simpl. eexists. rewrite <- app_assoc.
      split; reflexivity.
    + exists []. auto.
  - unfold print, ret, emit. simpl. eexists. rewrite <- app_assoc.
    split; reflexivity.
Qed.

Lemma transform_data_calls_load (raw : pyval) (w : world S) :
  calls LoadData (trace (snd (transform_data raw w))) = calls LoadData (trace w).
Proof.
  destruct (transform_data_trace raw w) as [l [-> Hl]].
  change (Call TransformData :: l) with ([Call TransformData] ++ l).
  rewrite app_assoc, (calls_prints _ _ _ Hl), calls_app. unfold calls. simpl. lia.
Qed.

(** The abort after the extract phase: nothing but a print follows. *)
Lemma extract_abort_calls (self : OTXETLConnector) (w w1 : world S)
    (raw : pyval) (m : method) :
  extract_data self default_endpoint default_limit (pipeline_start w)
    = (Ok raw, w1) ->
  m = TransformData \/ m = LoadData ->
  calls m (trace (emit (Print ExtractionFailed) w1)) = calls m (trace w).
Proof.
  intros Hex Hm.
  assert (m <> ExtractData) as Hne by (destruct Hm; subst; discriminate).
  pose proof (extract_data_calls self default_endpoint default_limit
                (pipeline_start w) m Hne) as Hcalls.
  rewrite Hex in Hcalls. simpl in Hcalls |- *.
  rewrite calls_app, Hcalls, !calls_app. unfold calls.
  destruct Hm; subst; simpl; lia.
Qed.

(** When [extract_data] returns, the phases after it do not raise: the
    orchestrator reports a boolean. *)
Lemma run_etl_pipeline_reports (self : OTXETLConnector) (w w1 : world S)
    (raw : pyval) :
  extract_data self default_endpoint default_limit (pipeline_start w)
    = (Ok raw, w1) ->
  exists b w', run_etl_pipeline self w = (Ok b, w').
Proof.
  intros Hex. rewrite run_etl_pipeline_phases, Hex.
  destruct (extract_data_returns _ _ _ _ _ _ Hex) as [->|(d & n & -> & Hlen)].
  - simpl. eauto.
  - destruct (truthy (VDict d)) eqn:Ht; [|eauto].
    assert (exists docs w2,
              transform_data (VDict d) (emit (Print TransformPhase) w1)
              = (Ok docs, w2)) as (docs & w2 & ->).
    { unfold transform_data, bind, call, lift. rewrite Ht. simpl.
      destruct (lookup "results" d) as [v|]; simpl.
      - destruct v; simpl in Hlen; try discriminate; simpl;
          match goal with
          | |- context [transform_loop ?ps [] ?w0] =>
              let evs := fresh "evs" in
              destruct (transform_loop_spec ps [] w0) as [evs [-> _]]
          end; unfold print, ret; simpl; eauto.
      - unfold print, ret. simpl. eauto. }
    destruct docs as [|doc docs]; [eauto|].
    destruct (load_data_total (VList (doc :: docs)) (emit (Print LoadPhase) w2))
      as (k & w3 & -> & _).
    eauto.
Qed.

(** C1: [run_etl_pipeline] returns true exactly when the load phase is
    reached and the loaded count is positive; when extraction returns the
    [None] sentinel it returns false and neither [transform_data] nor
    [load_data] is entered; when the transformer returns the empty list it
    returns false and [load_data] is not entered. *)
Theorem run_etl_pipeline_success_iff (self : OTXETLConnector) (w : world S) :
  let extract :=
    extract_data self default_endpoint default_limit (pipeline_start w) in
  (forall w',
     run_etl_pipeline self w = (Ok true, w') <->
     exists raw w1 docs w2 n w3,
       extract = (Ok raw, w1) /\
       truthy raw = true /\
       transform_data raw (emit (Print TransformPhase) w1) = (Ok docs, w2) /\
       docs <> [] /\
       load_data (VList docs) (emit (Print LoadPhase) w2) = (Ok n, w3) /\
       0 < n /\
       w' = pipeline_end (clock w) n w3) /\
  (forall w1,
     extract = (Ok VNone, w1) ->
     run_etl_pipeline self w = (Ok false, emit (Print ExtractionFailed) w1) /\
     calls TransformData (trace (snd (run_etl_pipeline self w)))
       = calls TransformData (trace w) /\
     calls LoadData (trace (snd (run_etl_pipeline self w)))
       = calls LoadData (trace w)) /\
  (forall raw w1 w2,
     extract = (Ok raw, w1) ->
     truthy raw = true ->
     transform_data raw (emit (Print TransformPhase) w1) = (Ok [], w2) ->
     run_etl_pipeline self w = (Ok false, emit (Print TransformationFailed) w2) /\
     calls LoadData (trace (snd (run_etl_pipeline self w)))
       = calls LoadData (trace w)).
Proof.
  cbv zeta. split; [|split].
  - intros w'. rewrite run_etl_pipeline_phases. split.
    + destruct (extract_data _ _ _ _) as [[raw|e] w1]; [|discriminate].
      destruct (truthy raw) eqn:Ht; [|discriminate].
      destruct (transform_data _ _) as [[docs|e] w2] eqn:Htr; [|discriminate].
      destruct docs as [|doc docs]; [discriminate|].
      destruct (load_data _ _) as [[n|e] w3] eqn:Hld; [|discriminate].
      intros H. injection H as Hn Hw. subst w'. apply Z.ltb_lt in Hn.
      exists raw, w1, (doc :: docs), w2, n, w3.
      repeat split; auto. discriminate.
    + intros (raw & w1 & docs & w2 & n & w3 & -> & -> & -> & Hne & -> & Hn & ->).
      destruct docs as [|doc docs]; [congruence|].
      apply Z.ltb_lt in Hn. rewrite Hn. reflexivity.
  - intros w1 Hex.
    pose proof (extract_abort_calls self w w1 VNone) as Hcalls.
    rewrite run_etl_pipeline_phases, Hex. simpl truthy. cbv iota.
    split; [reflexivity|]. cbn [snd]. split; apply Hcalls; auto.
  - intros raw w1 w2 Hex Ht Htr.
    rewrite run_etl_pipeline_phases, Hex, Ht, Htr.
    split; [reflexivity|]. cbn [snd].
    pose proof (transform_data_calls_load raw (emit (Print TransformPhase) w1))
      as Htc.
    rewrite Htr in Htc. cbn [snd] in Htc.
    pose proof (extract_abort_calls self w w1 raw LoadData Hex (or_intror eq_refl))
      as Hec.
    simpl in Htc, Hec |- *. rewrite calls_app in Htc, Hec |- *.
    unfold calls in *. simpl in *. lia.
Qed.

(** C10: the abort after the extract phase is taken on every falsy
    extraction result, not on [None] only: [run_etl_pipeline] then returns
    false and enters neither [transform_data] nor [load_data]; such is the
    empty dict of a reply that is accepted and whose body is the JSON
    object with no member. *)
Theorem run_etl_pipeline_aborts_on_falsy (self : OTXETLConnector)
    (w : world S) :
  let extract :=
    extract_data self default_endpoint default_limit (pipeline_start w) in
  (forall raw w1,
     extract = (Ok raw, w1) ->
     truthy raw = false ->
     run_etl_pipeline self w = (Ok false, emit (Print ExtractionFailed) w1) /\
     calls TransformData (trace (snd (run_etl_pipeline self w)))
       = calls TransformData (trace w) /\
     calls LoadData (trace (snd (run_etl_pipeline self w)))
       = calls LoadData (trace w)) /\
  (forall r,
     reply_used (http w) = Replies r ->
     error_status (status_code r) = false ->
     json_body r = Ok (VDict []) ->
     fst extract = Ok (VDict []) /\
     fst (run_etl_pipeline self w) = Ok false /\
     calls TransformData (trace (snd (run_etl_pipeline self w)))
       = calls TransformData (trace w) /\
     calls LoadData (trace (snd (run_etl_pipeline self w)))
       = calls LoadData (trace w)).
Proof.
  cbv zeta.
  assert (forall raw w1,
            extract_data self default_endpoint default_limit (pipeline_start w)
              = (Ok raw, w1) ->
            truthy raw = false ->
            run_etl_pipeline self w
              = (Ok false, emit (Print ExtractionFailed) w1) /\
            calls TransformData (trace (snd (run_etl_pipeline self w)))
              = calls TransformData (trace w) /\
            calls LoadData (trace (snd (run_etl_pipeline self w)))
              = calls LoadData (trace w)) as Habort.
  { intros raw w1 Hex Ht.
    pose proof (extract_abort_calls self w w1 raw) as Hcalls.
    rewrite run_etl_pipeline_phases, Hex, Ht.
    split; [reflexivity|]. cbn [snd]. split; apply Hcalls; auto. }
  split; [exact Habort|].
  intros r Hused Herr Hbody.
  pose proof (extract_data_result self default_endpoint default_limit
                (pipeline_start w)) as Hres.
  change (http (pipeline_start w)) with (http w) in Hres.
  rewrite Hused, Herr, Hbody in Hres. simpl in Hres.
  split; [exact Hres|].
  destruct (extract_data self default_endpoint default_limit (pipeline_start w))
    as [res w1] eqn:Hex.
  simpl in Hres. subst res.
  destruct (Habort (VDict []) w1 eq_refl eq_refl) as (Hrun & Ht & Hl).
  rewrite Hrun in *. auto.
Qed.

End Orchestrator.

(** ** The end-to-end scenario and the edges of the input domain *)

Example scenario_transform :
  fst (transform_data scenario_response (world0 tt [])) = Ok [scenario_doc].
Proof. reflexivity. Qed.

Example scenario_load :
  fst (load_data (VList [scenario_doc]) (world0 (@nil pyval) [])) = Ok 1.
Proof. reflexivity. Qed.

Example scenario_pipeline :
  fst (run_etl_pipeline connector
         (world0 (@nil pyval) [ok_json scenario_response])) = Ok true.
Proof. reflexivity. Qed.

(** A record whose [indicators] is [null] has no length: it is skipped. *)
Example null_indicators_skipped :
  fst (transform_data
         (VDict [("results", VList [VDict [("indicators", VNone)]; pulse_p1])])
         (world0 tt [])) = Ok [scenario_doc].
Proof. reflexivity. Qed.

(** The membership test of [transform_data] is outside the [try]: on a
    truthy value that is not a container it raises. *)
Remark transform_data_number_raises :
  fst (transform_data (VInt 5) (world0 tt [])) = Raise TypeError.
Proof. reflexivity. Qed.

(** An exception that leaves [extract_data] leaves the orchestrator. *)
Remark run_etl_pipeline_array_body_raises :
  fst (run_etl_pipeline connector (world0 tt [ok_json (VList [])]))
  = Raise AttributeError.
Proof. reflexivity. Qed.

(** ** The theorems at concrete inputs *)

Lemma transform_data_document_invariant_witness :
  In scenario_doc [scenario_doc] /\
  exists results pulses pulse,
    py_getitem scenario_response "results" = Ok results /\
    py_iter results = Ok pulses /\
    In pulse pulses /\
    normalized_from pulse scenario_doc.
Proof.
  split; [left; reflexivity|].
  eapply (transform_data_document_invariant scenario_response (world0 tt [])).
  - reflexivity.
  - left. reflexivity.
Defined.

Lemma transform_data_length_isolation_witness :
  lookup "results" mixed_batch
    = Some (VList [VInt 7; pulse_p1; VDict [("id", VStr "p2")]]) /\
  exists docs w',
    transform_data (VDict mixed_batch) (world0 tt []) = (Ok docs, w') /\
    List.length docs = 2%nat /\
    In scenario_doc docs.
Proof.
  split; [reflexivity|].
  destruct (transform_data_length_isolation mixed_batch
              [VInt 7; pulse_p1; VDict [("id", VStr "p2")]] (world0 tt [])
              eq_refl)
    as (docs & w' & Hrun & _ & _ & Hin & Hlen).
  exists docs, w'. split; [exact Hrun|]. split; [exact Hlen|].
  apply (Hin pulse_p1); [right; left; reflexivity | reflexivity].
Defined.

Lemma transform_data_nothing_to_transform_witness :
  py_contains "results" (VDict [("count", VInt 0)]) = Ok false /\
  fst (transform_data (VDict [("count", VInt 0)]) (world0 tt [])) = Ok [] /\
  fst (transform_data VNone (world0 tt [])) = Ok [].
Proof.
  split; [reflexivity|]. split.
  - rewrite (transform_data_nothing_to_transform
               (VDict [("count", VInt 0)]) (world0 tt []) (or_intror eq_refl)).
    reflexivity.
  - rewrite (transform_data_nothing_to_transform
               VNone (world0 tt []) (or_introl eq_refl)).
    reflexivity.
Defined.

Lemma transform_data_order_preserving_witness :
  exists docs w',
    transform_data (VDict mixed_batch) (world0 tt []) = (Ok docs, w') /\
    map raw_data_of docs = [pulse_p1; VDict [("id", VStr "p2")]].
Proof.
  destruct (transform_data_order_preserving mixed_batch
              [VInt 7; pulse_p1; VDict [("id", VStr "p2")]] (world0 tt [])
              eq_refl)
    as (docs & w' & Hrun & _ & Hraw).
  exists docs, w'. split; [exact Hrun | exact Hraw].
Defined.

Lemma extract_data_failures_to_none_witness :
  fst (extract_data connector default_endpoint default_limit
         (world0 tt [Fails])) = Ok VNone /\
  fst (extract_data connector default_endpoint default_limit
         (world0 tt [status_only 500])) = Ok VNone /\
  fst (extract_data connector default_endpoint default_limit
         (world0 tt [status_only 200])) = Ok VNone /\
  fst (extract_data connector default_endpoint default_limit
         (world0 tt [ok_json scenario_response])) = Ok scenario_response.
Proof.
  split; [|split; [|split]].
  - apply (proj1 (extract_data_failures_to_none connector default_endpoint
                    default_limit (world0 tt [Fails]))).
    reflexivity.
  - apply (proj1 (proj2 (extract_data_failures_to_none connector
                           default_endpoint default_limit
                           (world0 tt [status_only 500])))
             {| status_code := 500; json_body := Raise JSONDecodeError |});
      reflexivity.
  - apply (proj1 (proj2 (proj2 (extract_data_failures_to_none connector
                                  default_endpoint default_limit
                                  (world0 tt [status_only 200]))))
             {| status_code := 200; json_body := Raise JSONDecodeError |});
      reflexivity.
  - apply (proj2 (proj2 (proj2 (extract_data_failures_to_none connector
                                  default_endpoint default_limit
                                  (world0 tt [ok_json scenario_response]))))
             {| status_code := 200; json_body := Ok scenario_response |}
             [("results", VList [pulse_p1])] 1);
      reflexivity.
Defined.

(** A reply accepted with status 200 whose body is valid JSON of another
    shape is not turned into [None]: an object without [results] is
    returned as it is, and on an array the [AttributeError] of
    [data.get] leaves [extract_data]. *)
Lemma extract_data_unexpected_body_not_none :
  extract_data connector default_endpoint default_limit
    (world0 tt [ok_json (VDict [("detail", VStr "x")])])
  = (Ok (VDict [("detail", VStr "x")]),
     {| http := []; clock := 1000; store := tt;
        trace := [Call ExtractData;
                  Print (ExtractingFrom
                           "https://otx.alienvault.com/api/v1/pulses/subscribed");
                  HttpGet "https://otx.alienvault.com/api/v1/pulses/subscribed"
                    (headers connector) [("limit", 50)];
                  Print (Extracted 0)] |}) /\
  extract_data connector default_endpoint default_limit
    (world0 tt [ok_json (VList [])])
  = (Raise AttributeError,
     {| http := []; clock := 1000; store := tt;
        trace := [Call ExtractData;
                  Print (ExtractingFrom
                           "https://otx.alienvault.com/api/v1/pulses/subscribed");
                  HttpGet "https://otx.alienvault.com/api/v1/pulses/subscribed"
                    (headers connector) [("limit", 50)]] |}).
Proof.
  split; reflexivity.
Qed.

Lemma extract_data_rate_limit_retry_witness :
  let w := world0 tt [status_only 429; ok_json scenario_response] in
  let w2 := world0 tt [status_only 429; status_only 429;
                       ok_json scenario_response] in
  fst (extract_data connector default_endpoint default_limit w)
    = Ok scenario_response /\
  clock (snd (extract_data connector default_endpoint default_limit w)) = 1060 /\
  fst (extract_data connector default_endpoint default_limit w2) = Ok VNone /\
  http (snd (extract_data connector default_endpoint default_limit w2))
    = [ok_json scenario_response].
Proof.
  cbv zeta.
  pose proof (extract_data_rate_limit_retry connector default_endpoint
                default_limit
                (world0 tt [status_only 429; ok_json scenario_response])
                {| status_code := 429; json_body := Raise JSONDecodeError |}
                [ok_json scenario_response] eq_refl eq_refl)
    as (_ & Hclock & _ & Hres & _).
  pose proof (extract_data_rate_limit_retry connector default_endpoint
                default_limit
                (world0 tt [status_only 429; status_only 429;
                            ok_json scenario_response])
                {| status_code := 429; json_body := Raise JSONDecodeError |}
                [status_only 429; ok_json scenario_response] eq_refl eq_refl)
    as (_ & _ & Hhttp & Hres2 & _).
  split; [exact Hres|]. split; [exact Hclock|]. split; [exact Hres2|exact Hhttp].
Defined.

Lemma load_data_empty_witness :
  truthy (VList []) = false /\
  load_data (VList []) (world0 [scenario_doc] [])
  = (Ok 0, {| http := []; clock := 1000; store := [scenario_doc];
              trace := [Call LoadData; Print NoDataToLoad] |}).
Proof.
  split; [reflexivity|].
  apply (proj1 (load_data_empty (VList []) (world0 [scenario_doc] []) eq_refl)).
Defined.

Lemma load_data_insert_outcome_witness :
  fst (load_data (VList [scenario_doc]) (world0 tt [])) = Ok 0 /\
  fst (load_data (VList [scenario_doc]) (world0 (@nil pyval) [])) = Ok 1.
Proof.
  split.
  - apply (proj1 (load_data_insert_outcome (VList [scenario_doc])
                    (world0 tt []) eq_refl) PyMongoError tt).
    reflexivity.
  - apply (proj1 (proj2 (load_data_insert_outcome (VList [scenario_doc])
                           (world0 (@nil pyval) []) eq_refl))
             [0] [scenario_doc]).
    reflexivity.
Defined.

Lemma run_etl_pipeline_success_iff_witness :
  (exists w', run_etl_pipeline connector
                (world0 (@nil pyval) [ok_json scenario_response])
              = (Ok true, w')) /\
  fst (run_etl_pipeline connector (world0 (@nil pyval) [status_only 500]))
    = Ok false /\
  fst (run_etl_pipeline connector
         (world0 (@nil pyval) [ok_json (VDict [("results", VList [VInt 7])])]))
    = Ok false.
Proof.
  split; [|split].
  - eexists.
    apply (proj1 (run_etl_pipeline_success_iff connector
                    (world0 (@nil pyval) [ok_json scenario_response]))).
    do 6 eexists.
    split; [reflexivity|]. split; [reflexivity|]. split; [reflexivity|].
    split; [discriminate|]. split; [reflexivity|]. split; [reflexivity|].
    reflexivity.
  - destruct (proj1 (proj2 (run_etl_pipeline_success_iff connector
                              (world0 (@nil pyval) [status_only 500])))
                _ eq_refl) as [Hrun _].
    rewrite Hrun. reflexivity.
  - destruct (proj2 (proj2 (run_etl_pipeline_success_iff connector
                              (world0 (@nil pyval)
                                 [ok_json (VDict [("results", VList [VInt 7])])])))
                _ _ _ eq_refl eq_refl eq_refl) as [Hrun _].
    rewrite Hrun. reflexivity.
Defined.

Lemma run_etl_pipeline_aborts_on_falsy_witness :
  let w := world0 (@nil pyval) [ok_json (VDict [])] in
  fst (extract_data connector default_endpoint default_limit (pipeline_start w))
    = Ok (VDict []) /\
  fst (run_etl_pipeline connector w) = Ok false /\
  calls TransformData (trace (snd (run_etl_pipeline connector w))) = 0%nat /\
  calls LoadData (trace (snd (run_etl_pipeline connector w))) = 0%nat.
Proof.
  cbv zeta.
  apply (proj2 (run_etl_pipeline_aborts_on_falsy connector
                  (world0 (@nil pyval) [ok_json (VDict [])]))
           {| status_code := 200; json_body := Ok (VDict []) |});
    reflexivity.
Defined.

(** ** Further properties of the extractor *)

Section ExtractorEffects.

Context {S : Type} {store_ops : Collection S}.

Ltac unfold_extract :=
  unfold extract_data, bind, try_except, call, print, ret, raise, lift,
    requests_get, sleep, raise_for_status, response_json, emit;
  simpl.

Ltac extract_case :=
  match goal with
  | |- context [match ?x with _ => _ end] => is_var x; destruct x
  | |- context [status_code ?r =? 429] =>
      destruct (status_code r =? 429) eqn:?
  | |- context [(400 <=? status_code ?r) && (status_code ?r <? 600)] =>
      destruct ((400 <=? status_code r) && (status_code r <? 600)) eqn:?
  | |- context [json_body ?r] => destruct (json_body r) eqn:?
  | |- context [is_RequestException ?e] => is_var e; destruct e
  | |- context [py_get ?v _ _] => is_var v; destruct v
  | |- context [py_len ?v] =>
      let H := fresh "Hlen" in
      destruct (py_len v) eqn:H; [|apply py_len_raise in H; subst]
  end; simpl.

(** When the first reply is not a 429, [extract_data] issues one request
    and only prints afterwards: it does not sleep, the clock and the store
    are as before and one scripted reply is consumed. *)
Theorem extract_data_single_request (self : OTXETLConnector)
    (endpoint : string) (limit : Z) (w : world S) :
  is_429 (hd Fails (http w)) = false ->
  let url := (base_url self ++ endpoint)%string in
  let w' := snd (extract_data self endpoint limit w) in
  (exists suffix,
     trace w' = trace w ++ [Call ExtractData; Print (ExtractingFrom url);
                            HttpGet url (headers self) [("limit", limit)]]
                        ++ suffix /\
     forallb is_print suffix = true) /\
  clock w' = clock w /\
  http w' = tl (http w) /\
  store w' = store w.
Proof.
  destruct w as [script c s t]. cbn [http clock trace store].
  destruct script as [|[|r] rest]; cbn [hd is_429]; intros H429;
    unfold_extract; rewrite ?H429; simpl;
    repeat extract_case;
    (split; [|auto]); eexists; rewrite <- !app_assoc; simpl;
    (split; [reflexivity|reflexivity]).
Qed.

(** Whatever the replies, [extract_data] issues at most two requests,
    sleeps at most once for 60 seconds, consumes at most two replies and
    never reaches the store. *)
Theorem extract_data_bounded_effects (self : OTXETLConnector)
    (endpoint : string) (limit : Z) (w : world S) :
  let w' := snd (extract_data self endpoint limit w) in
  (List.length (filter is_get (trace w'))
     <= List.length (filter is_get (trace w)) + 2)%nat /\
  (clock w' = clock w \/ clock w' = clock w + 60) /\
  (http w' = tl (http w) \/ http w' = tl (tl (http w))) /\
  store w' = store w /\
  filter is_insert (trace w') = filter is_insert (trace w).
Proof.
  destruct w as [script c s t]. cbn [http clock trace store].
  unfold_extract.
  repeat extract_case;
    rewrite ?filter_app, ?length_app; simpl; rewrite ?app_nil_r;
    repeat split; auto; lia.
Qed.


(** What [extract_data] returns other than [None] is the parsed body of
    the reply it used, a JSON object, unchanged. *)
Theorem extract_data_returns_body (self : OTXETLConnector)
    (endpoint : string) (limit : Z) (w : world S) (raw : pyval) :
  fst (extract_data self endpoint limit w) = Ok raw ->
  raw = VNone \/
  exists r d,
    reply_used (http w) = Replies r /\
    error_status (status_code r) = false /\
    json_body r = Ok raw /\
    raw = VDict d.
Proof.
  rewrite extract_data_result.
  destruct (reply_used (http w)) as [|r]; [intros [= <-]; auto|].
  destruct (error_status (status_code r)) eqn:Herr; [intros [= <-]; auto|].
  destruct (json_body r) as [data|e] eqn:Hbody;
    [|destruct (is_RequestException e || is_JSONDecodeError e);
      [intros [= <-]; auto | discriminate]].
  destruct data; simpl; try discriminate.
  destruct (py_len _); [|discriminate].
  intros [= <-]. right. exists r, d. auto.
Qed.

Lemma extract_data_inserts (self : OTXETLConnector) (endpoint : string)
    (limit : Z) (w : world S) :
  filter is_insert (trace (snd (extract_data self endpoint limit w)))
  = filter is_insert (trace w).
Proof.
  destruct w as [script c s t]. cbn [trace]. unfold_extract.
  repeat extract_case; rewrite ?filter_app; simpl; rewrite ?app_nil_r;
    reflexivity.
Qed.

End ExtractorEffects.

(** ** Further properties of the transformer *)

Section TransformerEdges.

Context {S : Type} {store_ops : Collection S}.

Lemma mapped_mappable (w : world S) (pulse : pyval) :
  is_some (mapped w pulse) = mappable pulse.
Proof.
  unfold mapped. destruct pulse; try reflexivity.
  unfold transform_record, bind, lift, now, ret. simpl.
  destruct (match lookup "indicators" d with
            | Some v => v
            | None => VList []
            end); reflexivity.
Qed.

Lemma filter_map_none {A B : Type} (f : A -> option B) (l : list A) :
  (forall x, In x l -> f x = None) -> filter_map f l = [].
Proof.
  induction l as [|x l IH]; simpl; intros Hnone.
  - reflexivity.
  - rewrite (Hnone x (or_introl eq_refl)). apply IH. auto.
Qed.

Lemma chars_are_str (s : string) (x : pyval) :
  In x (chars s) -> exists c, x = VStr c.
Proof.
  induction s as [|a s IH]; simpl.
  - intros [].
  - intros [<-|Hin]; eauto.
Qed.

(** The loop with its exact log: one line per record that raises, in the
    order of the records. *)
Lemma transform_loop_log (pulses : list pyval) :
  forall (acc : list pyval) (w : world S),
    transform_loop pulses acc w =
      (Ok (acc ++ filter_map (mapped w) pulses),
       {| http := http w; clock := clock w; store := store w;
          trace := trace w ++ filter_map (skip_line w) pulses |}).
Proof.
  induction pulses as [|pulse rest IH]; intros acc w.
  - simpl. unfold ret. rewrite !app_nil_r. destruct w; reflexivity.
  - simpl. unfold bind at 1. unfold try_except, bind at 1.
    rewrite transform_record_run. unfold mapped at 1. unfold skip_line at 1.
    destruct (fst (transform_record pulse w)) as [doc|e] eqn:Hdoc.
    + unfold ret at 1. rewrite IH, <- app_assoc. reflexivity.
    + unfold bind, print, ret. simpl. rewrite IH. simpl.
      rewrite <- app_assoc. simpl.
      rewrite (filter_map_ext _ (mapped w))
        by (intros p; apply mapped_clock; reflexivity).
      rewrite (filter_map_ext (skip_line _) (skip_line w)); [reflexivity|].
      intros p. unfold skip_line.
      rewrite (transform_record_clock p _ w); reflexivity.
Qed.

(** [transform_data] on a dict whose [results] can be iterated. *)
Lemma transform_data_iterable (d : list (string * pyval)) (v : pyval)
    (items : list pyval) (w : world S) :
  lookup "results" d = Some v ->
  py_iter v = Ok items ->
  transform_data (VDict d) w =
    (Ok (filter_map (mapped w) items),
     {| http := http w; clock := clock w; store := store w;
        trace := trace w ++ [Call TransformData]
                   ++ filter_map (skip_line w) items
                   ++ [Print (Transformed
                                (Z.of_nat (List.length
                                             (filter_map (mapped w) items))))] |}).
Proof.
  intros Hres Hiter.
  assert (truthy (VDict d) = true) as Ht by (destruct d; [discriminate|reflexivity]).
  unfold transform_data, bind, call, lift, py_contains, py_getitem.
  rewrite Ht, Hres, Hiter. unfold ret at 1. simpl.
  rewrite transform_loop_log. unfold print, ret, emit. simpl.
  rewrite (filter_map_ext _ (mapped w))
    by (intros p; apply mapped_clock; reflexivity).
  rewrite (filter_map_ext (skip_line _) (skip_line w)).
  - rewrite <- !app_assoc. reflexivity.
  - intros p. unfold skip_line.
    rewrite (transform_record_clock p _ w); reflexivity.
Qed.

(** Which records are kept: on a list of records, the sources of the
    documents are the records that are JSON objects with [indicators]
    absent or sized, in order; every other record is skipped. *)
Theorem transform_data_keeps_mappable (d : list (string * pyval))
    (pulses : list pyval) (w : world S) :
  lookup "results" d = Some (VList pulses) ->
  exists docs w',
    transform_data (VDict d) w = (Ok docs, w') /\
    map raw_data_of docs = filter mappable pulses /\
    List.length docs = List.length (filter mappable pulses).
Proof.
  intros Hres. rewrite (transform_data_iterable d _ pulses w Hres eq_refl).
  eexists. eexists. split; [reflexivity|].
  assert (map raw_data_of (filter_map (mapped w) pulses) = filter mappable pulses)
    as Hraw.
  { rewrite raw_data_of_filter_map. apply filter_ext. intros p.
    apply mapped_mappable. }
  split; [exact Hraw|]. rewrite <- Hraw, length_map. reflexivity.
Qed.

(** Field by field: a document carries, for each copied field, the value
    the record has under the key, a null included, and the default only
    when the key is absent; it has the sixteen keys in their order, the
    provider tag and the clock's reading as ingestion timestamp. *)
Theorem transform_data_fields (d : list (string * pyval))
    (pulses docs : list pyval) (w w' : world S) (doc : pyval) :
  lookup "results" d = Some (VList pulses) ->
  transform_data (VDict d) w = (Ok docs, w') ->
  In doc docs ->
  exists fields pairs,
    In (VDict fields) pulses /\
    doc = VDict pairs /\
    map fst pairs = document_keys /\
    Forall (copies fields doc) copied_fields /\
    py_getitem doc "source" = Ok (VStr "otx_alienvault") /\
    py_getitem doc "ingestion_timestamp" = Ok (VDatetime (clock w)).
Proof.
  intros Hres. rewrite (transform_data_iterable d _ pulses w Hres eq_refl).
  intros [= <- _] Hin. apply filter_map_in in Hin as [pulse [Hin Hm]].
  unfold mapped in Hm. destruct pulse as [| | | | | |fields|]; try discriminate.
  unfold transform_record, bind, lift, now, ret in Hm. simpl in Hm.
  destruct (py_len _) as [n|e]; simpl in Hm; [|discriminate].
  injection Hm as <-. exists fields. eexists.
  split; [exact Hin|]. split; [reflexivity|]. split; [reflexivity|].
  split; [|split; reflexivity].
  unfold copied_fields. repeat constructor.
Qed.

(** When [results] is a JSON object or a string instead of an array, the
    loop runs over its keys or its characters, which are strings: every
    one is skipped and the result is the empty list, without exception. *)
Theorem transform_data_results_not_array (d : list (string * pyval))
    (v : pyval) (w : world S) :
  lookup "results" d = Some v ->
  (exists s, v = VStr s) \/ (exists o, v = VDict o) ->
  exists items,
    py_iter v = Ok items /\
    fst (transform_data (VDict d) w) = Ok [] /\
    List.length (filter is_print (trace (snd (transform_data (VDict d) w))))
    = (List.length (filter is_print (trace w)) + List.length items + 1)%nat.
Proof.
  intros Hres Hv.
  assert (exists items, py_iter v = Ok items /\
                        forall x, In x items -> exists c, x = VStr c)
    as (items & Hiter & Hstr).
  { destruct Hv as [[s ->]|[o ->]]; simpl; eexists; (split; [reflexivity|]).
    - apply chars_are_str.
    - intros x Hin. apply in_map_iff in Hin as (c & <- & _). eauto. }
  exists items. split; [exact Hiter|].
  rewrite (transform_data_iterable d v items w Hres Hiter). cbn [fst snd trace].
  assert (filter_map (mapped w) items = []) as ->.
  { apply filter_map_none. intros x Hin. destruct (Hstr x Hin) as [c ->].
    reflexivity. }
  split; [reflexivity|].
  rewrite !filter_app, !length_app. simpl.
  assert (filter is_print (filter_map (skip_line w) items)
          = filter_map (skip_line w) items) as ->.
  { clear Hiter. induction items as [|x items IH]; [reflexivity|].
    destruct (Hstr x (or_introl eq_refl)) as [c ->]. simpl.
    rewrite IH; [reflexivity|]. intros y Hy. apply Hstr. right. exact Hy. }
  assert (List.length (filter_map (skip_line w) items) = List.length items) as ->.
  { clear Hiter. induction items as [|x items IH]; [reflexivity|].
    destruct (Hstr x (or_introl eq_refl)) as [c ->]. simpl.
    rewrite IH; [reflexivity|]. intros y Hy. apply Hstr. right. exact Hy. }
  lia.
Qed.

End TransformerEdges.

Section TransformerErrors.

Context {S : Type} {store_ops : Collection S}.

Lemma py_iter_sized (v : pyval) :
  sized v = true -> exists items, py_iter v = Ok items.
Proof.
  destruct v; simpl; try discriminate; eauto.
Qed.

Lemma py_iter_unsized (v : pyval) :
  sized v = false -> py_iter v = Raise TypeError.
Proof.
  destruct v; simpl; try discriminate; reflexivity.
Qed.

(** [transform_data] on a dict that has [results]: the outcome is decided
    by whether the value can be iterated. *)
Lemma transform_data_with_results (d : list (string * pyval)) (v : pyval)
    (w : world S) :
  lookup "results" d = Some v ->
  fst (transform_data (VDict d) w) =
    match py_iter v with
    | Ok items => Ok (filter_map (mapped w) items)
    | Raise e => Raise e
    end.
Proof.
  intros Hres. destruct (py_iter v) as [items|e] eqn:Hiter.
  - rewrite (transform_data_iterable d v items w Hres Hiter). reflexivity.
  - assert (truthy (VDict d) = true) as Ht
      by (destruct d; [discriminate|reflexivity]).
    unfold transform_data, bind, call, lift, py_contains, py_getitem.
    rewrite Ht, Hres, Hiter. reflexivity.
Qed.

Lemma transform_data_dict_without_results (d : list (string * pyval))
    (w : world S) :
  lookup "results" d = None ->
  fst (transform_data (VDict d) w) = Ok [].
Proof.
  intros Hres. unfold transform_data, bind, call, lift, print, ret, py_contains.
  rewrite Hres. destruct (truthy (VDict d)); reflexivity.
Qed.

(** The only exception that leaves [transform_data] is [TypeError], from
    the statements outside the [try]: on a dict exactly when [results] is
    present and cannot be iterated (null, a number, a boolean); on any
    other truthy value exactly when the membership test is not negative. *)
Theorem transform_data_raises_type_error (raw : pyval) (w : world S) (e : exn) :
  fst (transform_data raw w) = Raise e <->
  e = TypeError /\
  truthy raw = true /\
  match raw with
  | VDict d => exists v, lookup "results" d = Some v /\ sized v = false
  | _ => py_contains "results" raw <> Ok false
  end.
Proof.
  destruct raw as [|b|n|f|s|l|d|t].
  - split; [discriminate|]. intros (_ & Ht & _). discriminate.
  - unfold transform_data, bind, call, lift. simpl. destruct b; simpl.
    + split; [intros [= <-]; repeat split; discriminate|].
      intros (-> & _). reflexivity.
    + split; [discriminate|]. intros (_ & Ht & _). discriminate.
  - unfold transform_data, bind, call, lift. simpl.
    destruct (n =? 0); simpl.
    + split; [discriminate|]. intros (_ & Ht & _). discriminate.
    + split; [intros [= <-]; repeat split; discriminate|].
      intros (-> & _). reflexivity.
  - unfold transform_data, bind, call, lift. simpl.
    destruct (PrimFloat.eqb f PrimFloat.zero); simpl.
    + split; [discriminate|]. intros (_ & Ht & _). discriminate.
    + split; [intros [= <-]; repeat split; discriminate|].
      intros (-> & _). reflexivity.
  - unfold transform_data, bind, call, lift. simpl.
    destruct (String.eqb s ""); simpl.
    + split; [discriminate|]. intros (_ & Ht & _). discriminate.
    + destruct (String.index 0 "results" s); simpl.
      * split; [intros [= <-]; repeat split; discriminate|].
        intros (-> & _). reflexivity.
      * split; [discriminate|]. intros (_ & _ & H). congruence.
  - unfold transform_data, bind, call, lift. simpl.
    destruct l as [|x l]; simpl.
    + split; [discriminate|]. intros (_ & Ht & _). discriminate.
    + destruct (is_str "results" x || existsb (is_str "results") l); simpl.
      * split; [intros [= <-]; repeat split; discriminate|].
        intros (-> & _). reflexivity.
      * split; [discriminate|]. intros (_ & _ & H). congruence.
  - destruct (lookup "results" d) as [v|] eqn:Hres.
    + rewrite (transform_data_with_results d v w Hres).
      destruct (sized v) eqn:Hs.
      * destruct (py_iter_sized v Hs) as [items ->].
        split; [discriminate|]. intros (_ & _ & v' & [= <-] & Hs').
        congruence.
      * rewrite (py_iter_unsized v Hs).
        split.
        -- intros [= <-]. repeat split.
           ++ destruct d; [discriminate|reflexivity].
           ++ exists v. auto.
        -- intros (-> & _). reflexivity.
    + rewrite (transform_data_dict_without_results d w Hres).
      split; [discriminate|]. intros (_ & _ & v & Hv & _). discriminate.
  - unfold transform_data, bind, call, lift. simpl.
    split; [intros [= <-]; repeat split; discriminate|].
    intros (-> & _). reflexivity.
Qed.

Lemma transform_data_state (raw : pyval) (w : world S) :
  http (snd (transform_data raw w)) = http w /\
  clock (snd (transform_data raw w)) = clock w /\
  store (snd (transform_data raw w)) = store w.
Proof.
  unfold transform_data, bind, call, lift.
  destruct (truthy raw); simpl.
  - destruct (py_contains "results" raw) as [[|]|e]; simpl; auto.
    destruct (py_getitem raw "results") as [results|e]; simpl; auto.
    destruct (py_iter results) as [pulses|e]; simpl; auto.
    rewrite transform_loop_log. simpl. auto.
  - auto.
Qed.

Lemma prints_no_insert (l : list event) :
  forallb is_print l = true -> filter is_insert l = [].
Proof.
  induction l as [|e l IH]; simpl; [reflexivity|].
  intros H. apply andb_prop in H as [He Hl].
  destruct e; try discriminate. simpl. auto.
Qed.

(** [transform_data] issues no request, does not sleep and does not
    reach the store, whatever its input and whether it returns or raises:
    all it adds to the trace after its entry are prints. *)
Theorem transform_data_frame (raw : pyval) (w : world S) :
  let w' := snd (transform_data raw w) in
  http w' = http w /\
  clock w' = clock w /\
  store w' = store w /\
  filter is_insert (trace w') = filter is_insert (trace w) /\
  filter is_get (trace w') = filter is_get (trace w).
Proof.
  cbv zeta. destruct (transform_data_state raw w) as (Hh & Hc & Hs).
  destruct (transform_data_trace raw w) as [l [Ht Hl]].
  repeat split; auto; rewrite Ht, filter_app; simpl.
  - rewrite (prints_no_insert l Hl), app_nil_r. reflexivity.
  - assert (filter is_get l = []) as ->; [|rewrite app_nil_r; reflexivity].
    clear Ht. induction l as [|e l IH]; simpl in *; [reflexivity|].
    apply andb_prop in Hl as [He Hl]. destruct e; try discriminate. auto.
Qed.

Lemma skipped_plus_mapped (w : world S) (pulses : list pyval) :
  (List.length (filter_map (skip_line w) pulses)
   + List.length (filter_map (mapped w) pulses))%nat = List.length pulses.
Proof.
  induction pulses as [|p pulses IH]; simpl; [reflexivity|].
  unfold skip_line at 1, mapped at 1.
  destruct (fst (transform_record p w)); simpl; lia.
Qed.

(** The log of a batch: after its entry [transform_data] prints one error
    line for each record that raises, in the order of the records, then
    the count of the documents; error lines and documents add up to the
    number of records. *)
Theorem transform_data_log (d : list (string * pyval)) (pulses : list pyval)
    (w : world S) :
  lookup "results" d = Some (VList pulses) ->
  exists docs w',
    transform_data (VDict d) w = (Ok docs, w') /\
    trace w' = trace w ++ [Call TransformData]
                 ++ filter_map (skip_line w) pulses
                 ++ [Print (Transformed (Z.of_nat (List.length docs)))] /\
    (List.length (filter_map (skip_line w) pulses) + List.length docs)%nat
    = List.length pulses /\
    forall line, In line (filter_map (skip_line w) pulses) ->
                 line = Print (TransformRecordError AttributeError) \/
                 line = Print (TransformRecordError TypeError).
Proof.
  intros Hres. rewrite (transform_data_iterable d _ pulses w Hres eq_refl).
  eexists. eexists. split; [reflexivity|]. split; [reflexivity|].
  split; [apply skipped_plus_mapped|].
  intros line Hin. apply filter_map_in in Hin as (p & _ & Hline).
  unfold skip_line in Hline. destruct p; try (injection Hline as <-; auto).
  unfold transform_record, bind, lift, now, ret in Hline. simpl in Hline.
  destruct (py_len _) as [n|e] eqn:Hlen; simpl in Hline; [discriminate|].
  apply py_len_raise in Hlen. subst e. injection Hline as <-. auto.
Qed.

End TransformerErrors.

(** ** Further properties of the loader and of the orchestrator *)

Section PipelineEffects.

Context {S : Type} {store_ops : Collection S}.

(** On a truthy argument [load_data] hands it unchanged to one bulk
    insert and leaves the store as that insert left it, also when the
    insert raised: there is no rollback and no second attempt.  It issues
    no request and does not sleep. *)
Theorem load_data_no_rollback (docs : pyval) (w : world S) :
  truthy docs = true ->
  let w' := snd (load_data docs w) in
  store w' = snd (insert_many docs (store w)) /\
  filter is_insert (trace w')
  = filter is_insert (trace w) ++ [InsertMany docs] /\
  http w' = http w /\
  clock w' = clock w.
Proof.
  intros Ht. rewrite (load_data_run docs w Ht). cbv zeta.
  destruct (fst (insert_many docs (store w))); simpl;
    rewrite !filter_app; simpl; rewrite !app_nil_r; auto.
Qed.

(** Whatever [extract_data] returns, [transform_data] accepts: applied
    to a value returned by the extractor it does not raise. *)
Theorem transform_data_accepts_extracted (self : OTXETLConnector)
    (endpoint : string) (limit : Z) (w w1 w2 : world S) (raw : pyval) :
  extract_data self endpoint limit w = (Ok raw, w1) ->
  exists docs, fst (transform_data raw w2) = Ok docs.
Proof.
  intros Hex.
  destruct (extract_data_returns _ _ _ _ _ _ Hex) as [->|(d & n & -> & Hlen)].
  - eexists. reflexivity.
  - destruct (lookup "results" d) as [v|] eqn:Hres.
    + rewrite (transform_data_with_results d v w2 Hres).
      assert (sized v = true) as Hs by (destruct v; try discriminate; reflexivity).
      destruct (py_iter_sized v Hs) as [items ->]. eauto.
    + rewrite (transform_data_dict_without_results d w2 Hres). eauto.
Qed.

(** An exception leaves [run_etl_pipeline] exactly when it leaves
    [extract_data]: the transform and load phases never raise in a run. *)
Theorem run_etl_pipeline_raises_iff (self : OTXETLConnector) (w : world S)
    (e : exn) :
  fst (run_etl_pipeline self w) = Raise e <->
  fst (extract_data self default_endpoint default_limit (pipeline_start w))
  = Raise e.
Proof.
  rewrite run_etl_pipeline_phases.
  destruct (extract_data self default_endpoint default_limit (pipeline_start w))
    as [[raw|e0] w1] eqn:Hex;
    [|cbn [fst]; split; intros [= <-]; reflexivity].
  cbn [fst]. split; [|discriminate].
  destruct (truthy raw); [|discriminate].
  destruct (extract_data_returns _ _ _ _ _ _ Hex) as [->|(d & n & -> & Hlen)].
  - simpl. discriminate.
  - pose proof (surjective_pairing
                  (transform_data (VDict d) (emit (Print TransformPhase) w1)))
      as Hpair.
    assert (exists docs,
              fst (transform_data (VDict d) (emit (Print TransformPhase) w1))
              = Ok docs) as [docs Hdocs].
    { destruct (lookup "results" d) as [v|] eqn:Hres.
      - rewrite (transform_data_with_results d v _ Hres).
        assert (sized v = true) as Hs
          by (destruct v; try discriminate; reflexivity).
        destruct (py_iter_sized v Hs) as [items ->]. eauto.
      - rewrite (transform_data_dict_without_results d _ Hres). eauto. }
    rewrite Hdocs in Hpair. rewrite Hpair.
    destruct docs as [|doc docs]; [discriminate|].
    match goal with
    | |- context [load_data ?a ?b] =>
        destruct (load_data_total a b) as (k & w3 & -> & _)
    end.
    discriminate.
Qed.

(** A run that reaches the load phase succeeds exactly when the store
    confirms at least one identifier for the batch; the batch is inserted
    into the store as the run found it. *)
Theorem run_etl_pipeline_success_needs_ids (self : OTXETLConnector)
    (w w1 w2 : world S) (raw : pyval) (docs : list pyval) :
  extract_data self default_endpoint default_limit (pipeline_start w)
    = (Ok raw, w1) ->
  truthy raw = true ->
  transform_data raw (emit (Print TransformPhase) w1) = (Ok docs, w2) ->
  docs <> [] ->
  (fst (run_etl_pipeline self w) = Ok true <->
   exists ids, fst (insert_many (VList docs) (store w)) = Ok ids /\ ids <> []) /\
  (fst (run_etl_pipeline self w) = Ok false <->
   fst (insert_many (VList docs) (store w)) = Ok [] \/
   exists e, fst (insert_many (VList docs) (store w)) = Raise e) /\
  store (snd (run_etl_pipeline self w))
  = snd (insert_many (VList docs) (store w)).
Proof.
  intros Hex Ht Htr Hne.
  assert (store w2 = store w) as Hstore.
  { pose proof (extract_data_store self default_endpoint default_limit
                  (pipeline_start w)) as H1.
    destruct (transform_data_state raw (emit (Print TransformPhase) w1))
      as (_ & _ & H2).
    rewrite Hex in H1. rewrite Htr in H2. simpl in H1, H2. congruence. }
  rewrite run_etl_pipeline_phases, Hex, Ht, Htr.
  destruct docs as [|doc docs]; [congruence|].
  rewrite (load_data_run (VList (doc :: docs)) (emit (Print LoadPhase) w2) eq_refl).
  cbv zeta. cbn [store emit]. rewrite Hstore.
  destruct (insert_many (VList (doc :: docs)) (store w)) as [[ids|e] s'];
    cbn [fst snd].
  - split; [|split; [|reflexivity]].
    + split.
      * intros [= Hn]. exists ids. split; [reflexivity|].
        intros ->. discriminate.
      * intros (ids' & [= <-] & Hids). destruct ids; [congruence|].
        reflexivity.
    + split.
      * intros [= Hn]. left. destruct ids; [reflexivity|discriminate].
      * intros [[= ->]|[e He]]; [reflexivity|discriminate].
  - split; [|split; [|reflexivity]].
    + split; [discriminate|]. intros (ids & Hids & _). discriminate.
    + split; [|reflexivity]. intros _. right. eauto.
Qed.

(** A run issues at most one bulk insert: either the store and the
    inserts recorded are as before, or one batch, not empty, was handed
    to the store. *)
Theorem run_etl_pipeline_one_insert (self : OTXETLConnector) (w : world S) :
  let w' := snd (run_etl_pipeline self w) in
  (store w' = store w /\
   filter is_insert (trace w') = filter is_insert (trace w)) \/
  (exists docs,
     docs <> [] /\
     store w' = snd (insert_many (VList docs) (store w)) /\
     filter is_insert (trace w')
     = filter is_insert (trace w) ++ [InsertMany (VList docs)]).
Proof.
  cbv zeta. rewrite run_etl_pipeline_phases.
  pose proof (extract_data_store self default_endpoint default_limit
                (pipeline_start w)) as Hs1.
  pose proof (extract_data_inserts self default_endpoint default_limit
                (pipeline_start w)) as Hi1.
  destruct (extract_data self default_endpoint default_limit (pipeline_start w))
    as [[raw|e] w1]; cbn [snd] in Hs1, Hi1 |- *; simpl in Hs1;
    assert (filter is_insert (trace w1) = filter is_insert (trace w)) as Hi1'
      by (rewrite Hi1; unfold pipeline_start; simpl;
          rewrite !filter_app; simpl; rewrite !app_nil_r; reflexivity).
  2:{ left. auto. }
  destruct (truthy raw).
  2:{ left. simpl. rewrite filter_app. simpl. rewrite app_nil_r. auto. }
  destruct (transform_data_state raw (emit (Print TransformPhase) w1))
    as (_ & _ & Hs2).
  destruct (transform_data_trace raw (emit (Print TransformPhase) w1))
    as [l [Ht2 Hl]].
  destruct (transform_data raw (emit (Print TransformPhase) w1))
    as [[docs|e] w2]; cbn [snd] in Hs2, Ht2; simpl in Hs2, Ht2.
  2:{ left. cbn [snd]. split; [congruence|]. rewrite Ht2, !filter_app. simpl.
      rewrite (prints_no_insert l Hl), !app_nil_r. exact Hi1'. }
  assert (filter is_insert (trace w2) = filter is_insert (trace w)) as Hi2.
  { rewrite Ht2, !filter_app. simpl.
    rewrite (prints_no_insert l Hl), !app_nil_r. exact Hi1'. }
  destruct docs as [|doc docs].
  { left. simpl. rewrite filter_app. simpl. rewrite app_nil_r.
    split; [congruence|exact Hi2]. }
  right. exists (doc :: docs). split; [discriminate|].
  rewrite (load_data_run (VList (doc :: docs)) (emit (Print LoadPhase) w2) eq_refl).
  cbv zeta. cbn [store emit]. rewrite Hs2, Hs1.
  destruct (fst (insert_many (VList (doc :: docs)) (store w))); simpl;
    rewrite !filter_app; simpl; rewrite !app_nil_r, Hi2; auto.
Qed.

End PipelineEffects.

(** ** The connection probe and the entry point *)

Section Probe.

Context {S : Type} {store_ops : Collection S} {client_ops : Client S}.

(** [test_connection] case by case. *)
Lemma test_connection_cases (self : OTXETLConnector) (s : session S) :
  test_connection self s =
  let w := etl s in
  let said := console s ++ [Say TestingConnections] in
  match http w with
  | Replies r :: _ =>
      if status_code r =? 200 then
        match ping (store w) with
        | (Ok _, st) =>
            (Ok true,
             {| etl := after_probe_request self st w;
                console := said ++ [Say ApiConnectionSuccessful; Ping;
                                    Say MongoConnectionSuccessful] |})
        | (Raise e, st) =>
            (Ok false,
             {| etl := after_probe_request self st w;
                console := said ++ [Say ApiConnectionSuccessful; Ping;
                                    Say (MongoConnectionError e)] |})
        end
      else
        (Ok false,
         {| etl := after_probe_request self (store w) w;
            console := said ++ [Say (ApiConnectionFailed (status_code r))] |})
  | _ =>
      (Ok false,
       {| etl := after_probe_request self (store w) w;
          console := said ++ [Say (ApiConnectionError RequestException)] |})
  end.
Proof.
  destruct s as [[script c st t] out].
  unfold test_connection, cli_bind, cli_try, in_etl, say, cli_ret,
    client_ping, requests_get, after_probe_request.
  simpl.
  destruct script as [|[|r] rest]; simpl;
    rewrite <- ?app_assoc; simpl; try reflexivity.
  destruct (status_code r =? 200); simpl.
  - destruct (ping st) as [[u|e] st']; simpl;
      rewrite <- ?app_assoc; reflexivity.
  - rewrite <- ?app_assoc. reflexivity.
Qed.

(** [test_connection] never raises, and answers true exactly when the
    next reply is a response of status 200 and the liveness command of the
    store returns. *)
Theorem test_connection_true_iff (self : OTXETLConnector) (s : session S) :
  exists b,
    fst (test_connection self s) = Ok b /\
    (b = true <->
     api_ok (http (etl s)) = true /\
     exists u, fst (ping (store (etl s))) = Ok u).
Proof.
  rewrite test_connection_cases. cbv zeta. unfold api_ok.
  destruct (http (etl s)) as [|[|r] rest].
  - exists false. split; [reflexivity|]. split; [discriminate|].
    intros [H _]. discriminate.
  - exists false. split; [reflexivity|]. split; [discriminate|].
    intros [H _]. discriminate.
  - destruct (status_code r =? 200).
    + destruct (ping (store (etl s))) as [[u|e] st].
      * exists true. split; [reflexivity|]. split; [|reflexivity].
        intros _. split; [reflexivity|]. exists u. reflexivity.
      * exists false. split; [reflexivity|]. split; [discriminate|].
        intros [_ [u Hu]]. discriminate.
    + exists false. split; [reflexivity|]. split; [discriminate|].
      intros [H _]. discriminate.
Qed.

(** [test_connection] issues one request, to the identity endpoint and
    without parameters, whatever the reply: a 429 is not retried and the
    clock does not move.  The store is pinged once when the API check
    passes and not at all when it does not. *)
Theorem test_connection_effects (self : OTXETLConnector) (s : session S) :
  let s' := snd (test_connection self s) in
  trace (etl s')
  = trace (etl s) ++ [HttpGet (base_url self ++ probe_endpoint)%string
                        (headers self) []] /\
  http (etl s') = tl (http (etl s)) /\
  clock (etl s') = clock (etl s) /\
  (if api_ok (http (etl s))
   then store (etl s') = snd (ping (store (etl s))) /\
        filter is_ping (console s') = filter is_ping (console s) ++ [Ping]
   else store (etl s') = store (etl s) /\
        filter is_ping (console s') = filter is_ping (console s)).
Proof.
  rewrite test_connection_cases. cbv zeta. unfold api_ok, after_probe_request.
  destruct s as [[script c st t] out]. cbn [etl console http store clock trace].
  destruct script as [|[|r] rest]; cbn [snd etl console http store clock trace tl];
    try (repeat split; rewrite !filter_app; simpl; rewrite !app_nil_r;
         reflexivity).
  destruct (status_code r =? 200).
  - destruct (ping st) as [[u|e] st'];
      cbn [snd etl console http store clock trace tl];
      repeat split; rewrite !filter_app; simpl; rewrite !app_nil_r;
      reflexivity.
  - cbn [snd etl console http store clock trace tl].
    repeat split. rewrite !filter_app. simpl. rewrite !app_nil_r. reflexivity.
Qed.

(** [main] after the probe. *)
Lemma main_after_probe (key : option string) (s : session S) :
  main key s =
  match test_connection (init key) s with
  | (Ok true, s1) =>
      match run_etl_pipeline (init key) (etl s1) with
      | (Ok b, w') =>
          (Ok tt,
           {| etl := w';
              console := console s1
                           ++ [Say (if b then PipelineSucceeded
                                    else PipelineFailed)] |})
      | (Raise e, w') => (Raise e, {| etl := w'; console := console s1 |})
      end
  | (Ok false, s1) =>
      (Ok tt, {| etl := etl s1;
                 console := console s1 ++ [Say ConnectionTestsFailed] |})
  | (Raise e, s1) => (Raise e, s1)
  end.
Proof.
  unfold main, cli_bind, in_etl, say, cli_ret.
  destruct (test_connection (init key) s) as [[[|]|e] s1]; simpl;
    try reflexivity.
  destruct (run_etl_pipeline (init key) (etl s1)) as [[[|]|e] w']; reflexivity.
Qed.

(** When the probe fails, [main] returns without entering the pipeline:
    one request has been issued, nothing was inserted and the last line
    says that the connection tests failed. *)
Theorem main_skips_pipeline (key : option string) (s : session S) :
  api_ok (http (etl s)) = false \/
  (exists e, fst (ping (store (etl s))) = Raise e) ->
  let s' := snd (main key s) in
  fst (main key s) = Ok tt /\
  calls RunEtlPipeline (trace (etl s')) = calls RunEtlPipeline (trace (etl s)) /\
  calls ExtractData (trace (etl s')) = calls ExtractData (trace (etl s)) /\
  filter is_insert (trace (etl s')) = filter is_insert (trace (etl s)) /\
  http (etl s') = tl (http (etl s)) /\
  last (console s') Ping = Say ConnectionTestsFailed.
Proof.
  intros Hfail. cbv zeta. rewrite main_after_probe, test_connection_cases.
  cbv zeta. unfold api_ok in Hfail. unfold after_probe_request.
  destruct s as [[script c st t] out].
  cbn [etl console http store clock trace] in *.
  assert (forall ev,
            is_call RunEtlPipeline ev = false ->
            is_call ExtractData ev = false ->
            is_insert ev = false ->
            calls RunEtlPipeline (t ++ [ev]) = calls RunEtlPipeline t /\
            calls ExtractData (t ++ [ev]) = calls ExtractData t /\
            filter is_insert (t ++ [ev]) = filter is_insert t) as Hreq.
  { intros ev H1 H2 H3. rewrite !calls_app, filter_app. unfold calls. simpl.
    rewrite H1, H2, H3, app_nil_r. simpl. repeat split; lia. }
  destruct script as [|[|r] rest];
    try (cbn [fst snd etl console http trace tl];
         destruct (Hreq (HttpGet (base_url (init key) ++ probe_endpoint)%string
                           (headers (init key)) []) eq_refl eq_refl eq_refl)
           as (H1 & H2 & H3);
         repeat split; auto; rewrite last_last; reflexivity).
  destruct (status_code r =? 200).
  - destruct Hfail as [Hfail|[e He]]; [discriminate|].
    destruct (ping st) as [[u|e'] st']; [discriminate|].
    cbn [fst snd etl console http trace tl].
    destruct (Hreq (HttpGet (base_url (init key) ++ probe_endpoint)%string
                      (headers (init key)) []) eq_refl eq_refl eq_refl)
      as (H1 & H2 & H3).
    repeat split; auto. rewrite last_last. reflexivity.
  - cbn [fst snd etl console http trace tl].
    destruct (Hreq (HttpGet (base_url (init key) ++ probe_endpoint)%string
                      (headers (init key)) []) eq_refl eq_refl eq_refl)
      as (H1 & H2 & H3).
    repeat split; auto. rewrite last_last. reflexivity.
Qed.

(** When the probe passes, [main] runs the pipeline on what the probe
    left: the reply to the probe is consumed, so extraction starts from
    the following one, and the store is as the liveness command left it.
    [main] raises exactly what that run raises, and its last line reports
    success exactly when the run returns true. *)
Theorem main_runs_pipeline (key : option string) (s : session S)
    (u : unit) (st : S) :
  api_ok (http (etl s)) = true ->
  ping (store (etl s)) = (Ok u, st) ->
  let run := run_etl_pipeline (init key)
               (after_probe_request (init key) st (etl s)) in
  etl (snd (main key s)) = snd run /\
  (forall e, fst (main key s) = Raise e <-> fst run = Raise e) /\
  (last (console (snd (main key s))) Ping = Say PipelineSucceeded
   <-> fst run = Ok true) /\
  (last (console (snd (main key s))) Ping = Say PipelineFailed
   <-> fst run = Ok false).
Proof.
  intros Hapi Hping. cbv zeta. rewrite main_after_probe, test_connection_cases.
  cbv zeta. unfold api_ok in Hapi.
  destruct (http (etl s)) as [|[|r] rest] eqn:Hhttp; try discriminate.
  rewrite Hapi, Hping. cbn [etl console].
  destruct (run_etl_pipeline (init key)
              (after_probe_request (init key) st (etl s)))
    as [[b|e0] w'] eqn:Hrun; cbn [fst snd etl console].
  - rewrite last_last.
    destruct b; repeat split; try discriminate; try reflexivity;
      intros H; discriminate.
  - change [Say ApiConnectionSuccessful; Ping; Say MongoConnectionSuccessful]
      with ([Say ApiConnectionSuccessful; Ping]
              ++ [Say MongoConnectionSuccessful]).
    rewrite app_assoc, last_last.
    repeat split; try discriminate; intros [= <-]; reflexivity.
Qed.

End Probe.

(** ** The further properties at concrete inputs *)

Lemma extract_data_single_request_witness :
  let w := world0 tt [ok_json scenario_response; status_only 500] in
  is_429 (hd Fails (http w)) = false /\
  clock (snd (extract_data connector default_endpoint default_limit w)) = 1000 /\
  http (snd (extract_data connector default_endpoint default_limit w))
  = [status_only 500].
Proof.
  cbv zeta. split; [reflexivity|].
  destruct (extract_data_single_request connector default_endpoint
              default_limit
              (world0 tt [ok_json scenario_response; status_only 500])
              eq_refl)
    as (_ & Hclock & Hhttp & _).
  split; [exact Hclock | exact Hhttp].
Defined.


Lemma extract_data_returns_body_witness :
  fst (extract_data connector default_endpoint default_limit
         (world0 tt [status_only 429; ok_json scenario_response]))
  = Ok scenario_response /\
  (scenario_response = VNone \/
   exists r d,
     reply_used [status_only 429; ok_json scenario_response] = Replies r /\
     error_status (status_code r) = false /\
     json_body r = Ok scenario_response /\
     scenario_response = VDict d).
Proof.
  split; [reflexivity|].
  apply (extract_data_returns_body connector default_endpoint default_limit
           (world0 tt [status_only 429; ok_json scenario_response])
           scenario_response).
  reflexivity.
Defined.

Lemma transform_data_keeps_mappable_witness :
  exists docs w',
    transform_data (VDict mixed_batch) (world0 tt []) = (Ok docs, w') /\
    map raw_data_of docs = [pulse_p1; VDict [("id", VStr "p2")]] /\
    List.length docs = 2%nat.
Proof.
  apply (transform_data_keeps_mappable mixed_batch
           [VInt 7; pulse_p1; VDict [("id", VStr "p2")]] (world0 tt [])).
  reflexivity.
Defined.

Lemma transform_data_fields_witness :
  exists docs w' doc,
    transform_data (VDict [("results", VList [pulse_null_name])]) (world0 tt [])
    = (Ok docs, w') /\
    In doc docs /\
    py_getitem doc "name" = Ok VNone /\
    py_getitem doc "description" = Ok (VStr "") /\
    py_getitem doc "public" = Ok (VBool false).
Proof.
  eexists. eexists. eexists.
  split; [reflexivity|]. split; [left; reflexivity|].
  destruct (transform_data_fields
              [("results", VList [pulse_null_name])] [pulse_null_name]
              _ (world0 tt []) _ _ eq_refl eq_refl (or_introl eq_refl))
    as (fields & pairs & _ & _ & _ & _ & _ & _).
  repeat split; reflexivity.
Defined.

Lemma transform_data_results_not_array_witness :
  fst (transform_data (VDict [("results", VStr "ab")]) (world0 tt [])) = Ok [] /\
  fst (transform_data (VDict [("results", VDict [("next", VNone)])])
         (world0 tt [])) = Ok [].
Proof.
  split.
  - destruct (transform_data_results_not_array
                [("results", VStr "ab")] (VStr "ab") (world0 tt []) eq_refl
                (or_introl (ex_intro _ "ab" eq_refl)))
      as (items & _ & Hres & _).
    exact Hres.
  - destruct (transform_data_results_not_array
                [("results", VDict [("next", VNone)])]
                (VDict [("next", VNone)]) (world0 tt []) eq_refl
                (or_intror (ex_intro _ [("next", VNone)] eq_refl)))
      as (items & _ & Hres & _).
    exact Hres.
Defined.

Lemma transform_data_raises_type_error_witness :
  fst (transform_data (VDict [("results", VNone)]) (world0 tt []))
  = Raise TypeError /\
  fst (transform_data (VList [VStr "results"]) (world0 tt []))
  = Raise TypeError.
Proof.
  split.
  - apply (proj2 (transform_data_raises_type_error
                    (VDict [("results", VNone)]) (world0 tt []) TypeError)).
    split; [reflexivity|]. split; [reflexivity|].
    exists VNone. split; reflexivity.
  - apply (proj2 (transform_data_raises_type_error
                    (VList [VStr "results"]) (world0 tt []) TypeError)).
    split; [reflexivity|]. split; [reflexivity|]. discriminate.
Defined.

Lemma transform_data_log_witness :
  exists docs w',
    transform_data (VDict mixed_batch) (world0 tt []) = (Ok docs, w') /\
    trace w' = [Call TransformData;
                Print (TransformRecordError AttributeError);
                Print (Transformed 2)].
Proof.
  destruct (transform_data_log mixed_batch
              [VInt 7; pulse_p1; VDict [("id", VStr "p2")]] (world0 tt [])
              eq_refl)
    as (docs & w' & Hrun & Htrace & Hcount & _).
  exists docs, w'. split; [exact Hrun|].
  rewrite Htrace. simpl.
  assert (List.length docs = 2%nat) as -> by (simpl in Hcount; lia).
  reflexivity.
Defined.

Lemma load_data_no_rollback_witness :
  truthy (VList [scenario_doc]) = true /\
  store (snd (load_data (VList [scenario_doc]) (world0 [pulse_p1] [])))
  = [pulse_p1; scenario_doc].
Proof.
  split; [reflexivity|].
  destruct (load_data_no_rollback (VList [scenario_doc])
              (world0 [pulse_p1] []) eq_refl) as (Hstore & _).
  exact Hstore.
Defined.

Lemma transform_data_accepts_extracted_witness :
  exists docs,
    fst (transform_data (VDict [("results", VStr "ab")]) (world0 tt []))
    = Ok docs.
Proof.
  eapply (transform_data_accepts_extracted connector default_endpoint
            default_limit
            (world0 tt [ok_json (VDict [("results", VStr "ab")])])).
  reflexivity.
Defined.

Lemma run_etl_pipeline_raises_iff_witness :
  fst (run_etl_pipeline connector (world0 tt [ok_json (VInt 1)]))
  = Raise AttributeError.
Proof.
  apply (proj2 (run_etl_pipeline_raises_iff connector
                  (world0 tt [ok_json (VInt 1)]) AttributeError)).
  reflexivity.
Defined.

Lemma run_etl_pipeline_success_needs_ids_witness :
  fst (run_etl_pipeline connector
         (world0 (@nil pyval) [ok_json scenario_response])) = Ok true /\
  fst (run_etl_pipeline connector (world0 tt [ok_json scenario_response]))
  = Ok false.
Proof.
  split.
  - eapply (proj1 (run_etl_pipeline_success_needs_ids connector
                     (world0 (@nil pyval) [ok_json scenario_response])
                     _ _ scenario_response [scenario_doc]
                     eq_refl eq_refl eq_refl _)).
    exists [0]. split; [reflexivity | discriminate].
  - eapply (proj1 (proj2 (run_etl_pipeline_success_needs_ids connector
                            (world0 tt [ok_json scenario_response])
                            _ _ scenario_response [scenario_doc]
                            eq_refl eq_refl eq_refl _))).
    right. exists PyMongoError. reflexivity.
  Unshelve. all: discriminate.
Defined.

Lemma test_connection_true_iff_witness :
  fst (test_connection connector (session0 (@nil pyval) [status_only 200]))
  = Ok true /\
  fst (test_connection connector (session0 (@nil pyval) [status_only 204]))
  = Ok false.
Proof.
  split.
  - destruct (test_connection_true_iff connector
                (session0 (@nil pyval) [status_only 200])) as (b & Hb & Hiff).
    rewrite Hb. f_equal. apply Hiff. split; [reflexivity|].
    exists tt. reflexivity.
  - destruct (test_connection_true_iff connector
                (session0 (@nil pyval) [status_only 204])) as (b & Hb & Hiff).
    rewrite Hb. f_equal. destruct b; [|reflexivity].
    destruct (proj1 Hiff eq_refl) as [Hapi _]. discriminate.
Defined.

Lemma main_skips_pipeline_witness :
  let s := session0 (@nil pyval) [status_only 429; ok_json scenario_response] in
  api_ok (http (etl s)) = false /\
  fst (main (Some "key") s) = Ok tt /\
  calls RunEtlPipeline (trace (etl (snd (main (Some "key") s)))) = 0%nat /\
  http (etl (snd (main (Some "key") s))) = [ok_json scenario_response].
Proof.
  cbv zeta. split; [reflexivity|].
  destruct (main_skips_pipeline (Some "key")
              (session0 (@nil pyval)
                 [status_only 429; ok_json scenario_response])
              (or_introl eq_refl))
    as (Hres & Hcalls & _ & _ & Hhttp & _).
  split; [exact Hres|]. split; [exact Hcalls | exact Hhttp].
Defined.

Lemma main_runs_pipeline_witness :
  let s := session0 (@nil pyval) [status_only 200; ok_json scenario_response] in
  api_ok (http (etl s)) = true /\
  ping (store (etl s)) = (Ok tt, @nil pyval) /\
  last (console (snd (main (Some "key") s))) Ping = Say PipelineSucceeded.
Proof.
  cbv zeta. split; [reflexivity|]. split; [reflexivity|].
  apply (proj1 (proj2 (proj2 (@main_runs_pipeline (list pyval)
                                accepting_store accepting_client (Some "key")
                                (session0 (@nil pyval)
                                   [status_only 200; ok_json scenario_response])
                                tt (@nil pyval) eq_refl eq_refl)))).
  reflexivity.
Defined.
